(** * web_article_extractor: the extraction pipeline of [extractor.py]

    A shallow embedding of [ArticleExtractor] (extractor.py) and of
    [ExtractionResult] (models.py).

    - Python [str] values are Rocq strings; the characters are the code
      points below 256.
    - Values whose type is not fixed by the code (a table cell, a JSON
      value) are [pyval]s.
    - The libraries the extractor calls (newspaper, trafilatura, requests,
      the Gemini client, json, dateutil, pandas) are fields of an
      [Environment]; calls that reach the network or the file system thread
      a world state.
    - Code runs in a state-and-exception monad [M]; [try_except] is the
      Python statement of that name.  The state carries a trace of the
      stage invocations and of the tables written.
    - Calls to the logger are left out: they return nothing the code uses. *)

From Stdlib Require Import String Ascii List Bool Arith ZArith Lia.
From Stdlib Require Import DecimalString.
Import ListNotations.
Open Scope string_scope.
Set Warnings "-register-all".

(** ** Python strings *)

Module Str.

(** The double quote and the line feed, for literals that contain them. *)
Definition dq : string := String (ascii_of_nat 34) EmptyString.
Definition nl : string := String (ascii_of_nat 10) EmptyString.

(** [str.isspace] on one character: U+0009..U+000D, U+001C..U+0020,
    U+0085 and U+00A0. *)
Definition isspace (c : ascii) : bool :=
  let n := nat_of_ascii c in
  ((9 <=? n)%nat && (n <=? 13)%nat) || ((28 <=? n)%nat && (n <=? 32)%nat)
  || (n =? 133)%nat || (n =? 160)%nat.

Definition nonempty (s : string) : bool :=
  match s with EmptyString => false | String _ _ => true end.

Fixpoint lstrip (s : string) : string :=
  match s with
  | EmptyString => EmptyString
  | String c s' => if isspace c then lstrip s' else s
  end.

Fixpoint rstrip (s : string) : string :=
  match s with
  | EmptyString => EmptyString
  | String c s' =>
      match rstrip s' with
      | EmptyString => if isspace c then EmptyString else String c EmptyString
      | r => String c r
      end
  end.

(** [s.strip()] *)
Definition strip (s : string) : string := rstrip (lstrip s).

(** [s.startswith(p)] *)
Fixpoint startswith (s p : string) {struct p} : bool :=
  match p, s with
  | EmptyString, _ => true
  | String _ _, EmptyString => false
  | String a p', String b s' => Ascii.eqb a b && startswith s' p'
  end.

(** [s.endswith(p)] *)
Fixpoint endswith (s p : string) : bool :=
  String.eqb s p ||
  match s with
  | EmptyString => false
  | String _ s' => endswith s' p
  end.

(** [s[n:]] *)
Fixpoint drop (n : nat) (s : string) : string :=
  match n, s with
  | O, _ => s
  | S _, EmptyString => EmptyString
  | S n', String _ s' => drop n' s'
  end.

(** [s[:n]] for [n >= 0] *)
Fixpoint take (n : nat) (s : string) : string :=
  match n, s with
  | O, _ => EmptyString
  | S _, EmptyString => EmptyString
  | S n', String c s' => String c (take n' s')
  end.

(** [s[:-n]] for [n > 0] *)
Definition drop_last (n : nat) (s : string) : string :=
  take (String.length s - n) s.

Fixpoint all_space (s : string) : bool :=
  match s with
  | EmptyString => true
  | String c s' => isspace c && all_space s'
  end.

Definition first_char (s : string) : option ascii :=
  match s with EmptyString => None | String c _ => Some c end.

Fixpoint last_char (s : string) : option ascii :=
  match s with
  | EmptyString => None
  | String c EmptyString => Some c
  | String _ s' => last_char s'
  end.

End Str.

(** ** Python values *)

(** A binary64 float: a NaN, an infinity, or [mantissa * 2 ^ exponent]. *)
Inductive pyfloat : Type :=
| FNaN
| FInf (negative : bool)
| FFinite (mantissa exponent : Z).

Inductive pyval : Type :=
| PyNone
| PyBool (b : bool)
| PyInt (z : Z)
| PyFloat (f : pyfloat)
| PyStr (s : string)
| PyList (l : list pyval)
| PyDict (d : list (string * pyval)).

(** [bool(v)] *)
Definition truthy (v : pyval) : bool :=
  match v with
  | PyNone => false
  | PyBool b => b
  | PyInt z => negb (Z.eqb z 0)
  | PyFloat (FFinite m _) => negb (Z.eqb m 0)
  | PyFloat _ => true
  | PyStr s => Str.nonempty s
  | PyList l => match l with [] => false | _ => true end
  | PyDict d => match d with [] => false | _ => true end
  end.

(** [isinstance(v, str)] *)
Definition is_str (v : pyval) : bool :=
  match v with PyStr _ => true | _ => false end.

(** [type(v).__name__] *)
Definition type_name (v : pyval) : string :=
  match v with
  | PyNone => "NoneType"
  | PyBool _ => "bool"
  | PyInt _ => "int"
  | PyFloat _ => "float"
  | PyStr _ => "str"
  | PyList _ => "list"
  | PyDict _ => "dict"
  end.

(** [a or b] *)
Definition py_or (a b : pyval) : pyval := if truthy a then a else b.

Definition of_option (o : option string) : pyval :=
  match o with Some s => PyStr s | None => PyNone end.

(** Lookup in a dict with string keys. *)
Fixpoint dict_lookup (d : list (string * pyval)) (key : string) : option pyval :=
  match d with
  | [] => None
  | (k, v) :: d' => if String.eqb k key then Some v else dict_lookup d' key
  end.

(** ** Exceptions *)

(** The classes of [exceptions.py] that extractor.py imports. *)
Inductive repo_exn : Type :=
| ArticleDownloadError | ArticleParseError | HTMLFetchError | LLMExtractionError.

(** Built-in and library exception classes. *)
Inductive lib_exn : Type :=
| Exception
| ArithmeticError | OverflowError
| AttributeError
| LookupError | KeyError | IndexError
| OSError | RequestException | HTTPError
| TypeError
| ValueError | JSONDecodeError | ParserError
| RuntimeError.

Inductive exn_class : Type :=
| Lib (c : lib_exn)
| Repo (c : repo_exn).

(** The direct base class: [requests.RequestException] derives from
    [IOError], which is [OSError]; [json.JSONDecodeError] and dateutil's
    [ParserError] derive from [ValueError]. *)
Definition lib_base (c : lib_exn) : option lib_exn :=
  match c with
  | Exception => None
  | OverflowError => Some ArithmeticError
  | KeyError | IndexError => Some LookupError
  | RequestException => Some OSError
  | HTTPError => Some RequestException
  | JSONDecodeError | ParserError => Some ValueError
  | ArithmeticError | AttributeError | LookupError | OSError
  | TypeError | ValueError | RuntimeError => Some Exception
  end.

Definition lib_exn_eqb (a b : lib_exn) : bool :=
  match a, b with
  | Exception, Exception | ArithmeticError, ArithmeticError
  | OverflowError, OverflowError | AttributeError, AttributeError
  | LookupError, LookupError | KeyError, KeyError | IndexError, IndexError
  | OSError, OSError | RequestException, RequestException
  | HTTPError, HTTPError | TypeError, TypeError | ValueError, ValueError
  | JSONDecodeError, JSONDecodeError | ParserError, ParserError
  | RuntimeError, RuntimeError => true
  | _, _ => false
  end.

Definition repo_exn_eqb (a b : repo_exn) : bool :=
  match a, b with
  | ArticleDownloadError, ArticleDownloadError
  | ArticleParseError, ArticleParseError
  | HTMLFetchError, HTMLFetchError
  | LLMExtractionError, LLMExtractionError => true
  | _, _ => false
  end.

(** [issubclass] among the library classes; the hierarchy is at most four
    deep. *)
Fixpoint lib_issubclass_fuel (fuel : nat) (c target : lib_exn) : bool :=
  lib_exn_eqb c target ||
  match fuel, lib_base c with
  | S fuel', Some b => lib_issubclass_fuel fuel' b target
  | _, _ => false
  end.

Definition lib_issubclass : lib_exn -> lib_exn -> bool := lib_issubclass_fuel 4.

Record exn : Type := mk_exn { exn_type : exn_class; exn_msg : string }.

Inductive result (A : Type) : Type :=
| Ok (a : A)
| Raise (e : exn).
Arguments Ok {A} a.
Arguments Raise {A} e.

(** ** Records of the libraries and of models.py *)

Record date : Type := mk_date { year : nat; month : nat; day : nat }.

Record datetime : Type := mk_datetime {
  dt_date : date;
  hour : nat; minute : nat; second : nat; microsecond : nat;
  utcoffset : option Z (* seconds east of UTC *)
}.

(** A parsed [newspaper.Article]. *)
Record Article : Type := mk_Article {
  article_text : string;
  publish_date : option datetime
}.

(** The document [trafilatura.extract_metadata] returns. *)
Record Metadata : Type := mk_Metadata { metadata_date : option string }.

(** A [requests.Response]. *)
Record Response : Type := mk_Response {
  status_code : Z;
  response_text : string
}.

(** The columns of a [pandas.DataFrame] and its rows as [iterrows] yields
    them, cell by cell. *)
Record DataFrame : Type := mk_DataFrame {
  columns : list string;
  rows : list (list pyval)
}.

(** [Config], as far as extractor.py reads it. *)
Record Config : Type := mk_Config {
  id_column : string;
  url_columns : list string
}.

(** models.py, [ExtractionResult].  The annotations of a dataclass are not
    enforced, so every field that the pipeline may leave unset is an
    option. *)
Record ExtractionResult : Type := mk_ExtractionResult {
  id_value : string;
  url : string;
  extracted_text : option string;
  publication_date : option string;
  extraction_method : option string;
  status : string;
  error_message : option string
}.

(** ** Formatting dates *)

Definition digit (n : nat) : ascii := ascii_of_nat (48 + n).

(** The [width] low-order decimal digits of [n]. *)
Fixpoint low_digits (width n : nat) : string :=
  match width with
  | O => EmptyString
  | S w => low_digits w (n / 10) ++ String (digit (n mod 10)) EmptyString
  end.

(** ["%0<width>d" % n] *)
Definition zero_padded (width n : nat) : string :=
  if (n <? 10 ^ width)%nat then low_digits width n
  else NilEmpty.string_of_uint (Nat.to_uint n).

(** [date.isoformat()] *)
Definition date_isoformat (d : date) : string :=
  zero_padded 4 (year d) ++ "-" ++ zero_padded 2 (month d) ++ "-"
  ++ zero_padded 2 (day d).

(** The offset part of [datetime.isoformat()]. *)
Definition format_offset (off : Z) : string :=
  let sign := if (off <? 0)%Z then "-" else "+" in
  let a := Z.to_nat (Z.abs off) in
  let hh := a / 3600 in
  let mm := (a mod 3600) / 60 in
  let ss := a mod 60 in
  sign ++ zero_padded 2 hh ++ ":" ++ zero_padded 2 mm
  ++ (if (ss =? 0)%nat then "" else ":" ++ zero_padded 2 ss).

(** [datetime.isoformat()] *)
Definition datetime_isoformat (dt : datetime) : string :=
  date_isoformat (dt_date dt) ++ "T"
  ++ zero_padded 2 (hour dt) ++ ":" ++ zero_padded 2 (minute dt) ++ ":"
  ++ zero_padded 2 (second dt)
  ++ (if (microsecond dt =? 0)%nat then "" else "." ++ zero_padded 6 (microsecond dt))
  ++ match utcoffset dt with Some off => format_offset off | None => "" end.

(** ** The monad of the embedding *)

Inductive stage : Type := Newspaper | Trafilatura | Gemini.

(** What the trace records: a stage function was entered with a URL; a
    table was handed to [DataFrame.to_csv]. *)
Inductive event : Type :=
| Invoked (s : stage) (u : string)
| Written (path : string) (table : list (list (string * pyval))).

Section Pipeline.

(** The state of everything outside the program: the network, the LLM
    service, the file system, the clock. *)
Variable W : Type.

Record state : Type := mk_state { world : W; trace : list event }.

Definition M (A : Type) : Type := state -> result A * state.

Definition ret {A} (a : A) : M A := fun st => (Ok a, st).

Definition raise {A} (e : exn) : M A := fun st => (Raise e, st).

Definition bind {A B} (m : M A) (k : A -> M B) : M B :=
  fun st =>
    match m st with
    | (Ok a, st') => k a st'
    | (Raise e, st') => (Raise e, st')
    end.

Notation "x <- m ;; k" := (bind m (fun x => k))
  (at level 61, m at next level, right associativity).
Notation "m ;;; k" := (bind m (fun _ => k))
  (at level 61, right associativity).

(** [try: body  except <handled>: handler] *)
Definition try_except {A} (body : M A) (handled : exn -> bool)
    (handler : exn -> M A) : M A :=
  fun st =>
    match body st with
    | (Raise e, st') => if handled e then handler e st' else (Raise e, st')
    | r => r
    end.

(** A library call that may change the world. *)
Definition call_world {A} (f : W -> result A * W) : M A :=
  fun st =>
    let (r, w) := f (world st) in (r, mk_state w (trace st)).

(** A library call that reads the world (the clock). *)
Definition call_reading {A} (f : W -> result A) : M A :=
  fun st => (f (world st), st).

(** A library call that depends on its arguments alone. *)
Definition call_pure {A} (r : result A) : M A := fun st => (r, st).

Definition emit (e : event) : M unit :=
  fun st => (Ok tt, mk_state (world st) (trace st ++ [e])).

(** ** The libraries *)

Record Environment : Type := mk_Environment {
  (** [issubclass(c, target)] for a class [c] of exceptions.py *)
  exceptions_issubclass : repo_exn -> exn_class -> bool;
  (** [Article(url)], [download()] and [parse()] *)
  newspaper_Article : string -> W -> result Article * W;
  trafilatura_fetch_url : string -> W -> result (option string) * W;
  (** [trafilatura.extract(html, include_comments=False, include_tables=False)] *)
  trafilatura_extract : string -> result (option string);
  trafilatura_extract_metadata : string -> result (option Metadata);
  (** [requests.get(url, timeout=30, headers=...)] *)
  requests_get : string -> W -> result Response * W;
  (** [self.gemini_api.query(prompt)] *)
  gemini_api_query : string -> W -> result string * W;
  json_loads : string -> result pyval;
  (** [dateutil.parser.parse]; the fields a string leaves out come from the
      current day *)
  date_parser_parse : pyval -> W -> result datetime;
  pd_read_csv : string -> W -> result DataFrame * W;
  (** [DataFrame(table).to_csv(path, index=False)] *)
  DataFrame_to_csv : list (list (string * pyval)) -> string -> W -> result unit * W;
  (** [str(v)] and [repr] of a list of strings *)
  builtin_str : pyval -> string;
  builtin_repr : list string -> string
}.

Variable env : Environment.

Definition exn_class_eqb (a b : exn_class) : bool :=
  match a, b with
  | Lib x, Lib y => lib_exn_eqb x y
  | Repo x, Repo y => repo_exn_eqb x y
  | _, _ => false
  end.

(** [issubclass(c, target)]: no library class derives from a class of
    exceptions.py. *)
Definition issubclass (c target : exn_class) : bool :=
  match c, target with
  | Lib a, Lib b => lib_issubclass a b
  | Lib _, Repo _ => false
  | Repo r, _ => exn_class_eqb c target || exceptions_issubclass env r target
  end.

(** The test of [except (C1, ..., Cn)]. *)
Definition catches (handlers : list exn_class) (e : exn) : bool :=
  existsb (issubclass (exn_type e)) handlers.

(** The error of [v.name] when [v] has no such attribute. *)
Definition no_attribute (v : pyval) (name : string) : exn :=
  mk_exn (Lib AttributeError)
    ("'" ++ type_name v ++ "' object has no attribute '" ++ name ++ "'").

(** [v.get(key, default)] *)
Definition call_get (v : pyval) (key : string) (default : pyval) : M pyval :=
  match v with
  | PyDict d =>
      ret (match dict_lookup d key with Some x => x | None => default end)
  | _ => raise (no_attribute v "get")
  end.

(** [v.strip()] *)
Definition call_strip (v : pyval) : M string :=
  match v with
  | PyStr s => ret (Str.strip s)
  | _ => raise (no_attribute v "strip")
  end.

(** [text and len(text) > 100] *)
Definition long_enough (text : option string) : bool :=
  match text with
  | Some t => Str.nonempty t && (100 <? String.length t)%nat
  | None => false
  end.

(** ** The three stages *)

Definition extract_with_newspaper (u : string) : M (option string * pyval) :=
  emit (Invoked Newspaper u) ;;;
  try_except
    (article <- call_world (newspaper_Article env u) ;;
     let text :=
       if Str.nonempty (article_text article)
       then Some (Str.strip (article_text article)) else None in
     let date :=
       match publish_date article with
       | Some d => PyStr (datetime_isoformat d)
       | None => PyNone
       end in
     if long_enough text then ret (text, date) else ret (None, PyNone))
    (catches [Repo ArticleDownloadError; Repo ArticleParseError;
              Lib ValueError; Lib OSError])
    (fun _ => ret (None, PyNone)).

Definition extract_with_trafilatura (u : string) : M (option string * pyval) :=
  emit (Invoked Trafilatura u) ;;;
  try_except
    (downloaded <- call_world (trafilatura_fetch_url env u) ;;
     match downloaded with
     | None => ret (None, PyNone)
     | Some html =>
         if negb (Str.nonempty html) then ret (None, PyNone)
         else
           text <- call_pure (trafilatura_extract env html) ;;
           metadata <- call_pure (trafilatura_extract_metadata env html) ;;
           let date :=
             match metadata with
             | Some md =>
                 match metadata_date md with
                 | Some d => if Str.nonempty d then PyStr d else PyNone
                 | None => PyNone
                 end
             | None => PyNone
             end in
           if long_enough text then ret (text, date) else ret (None, PyNone)
     end)
    (catches [Repo HTMLFetchError; Lib ValueError; Lib OSError])
    (fun _ => ret (None, PyNone)).

(** [response.raise_for_status()] *)
Definition raise_for_status (response : Response) : M unit :=
  if ((400 <=? status_code response) && (status_code response <? 600))%Z
  then raise (mk_exn (Lib HTTPError) "HTTP error")
  else ret tt.

(** The prompt of extractor.py, lines 115 to 123. *)
Definition build_prompt (html : string) : string :=
  "Extract the main article text and publication date from this HTML content."
  ++ Str.nl ++ "Return a JSON object with two fields:"
  ++ Str.nl ++ "- " ++ Str.dq ++ "text" ++ Str.dq
  ++ ": The main article text (not HTML, just the readable text)"
  ++ Str.nl ++ "- " ++ Str.dq ++ "date" ++ Str.dq
  ++ ": The publication date in any format you can find (or null if not found)"
  ++ Str.nl ++ Str.nl ++ "HTML content:"
  ++ Str.nl ++ html
  ++ Str.nl ++ Str.nl ++ "Return only valid JSON, no additional text.".

(** Lines 129 to 136: the fence markers are removed. *)
Definition strip_code_fences (response_text : string) : string :=
  let r := Str.strip response_text in
  let r := if Str.startswith r "```json" then Str.drop 7 r else r in
  let r := if Str.startswith r "```" then Str.drop 3 r else r in
  let r := if Str.endswith r "```" then Str.drop_last 3 r else r in
  Str.strip r.

(** Lines 129 to 147: the response of the model is parsed. *)
Definition parse_gemini_response (response_text : string)
    : M (option string * pyval) :=
  let response_text := strip_code_fences response_text in
  result <- call_pure (json_loads env response_text) ;;
  t <- call_get result "text" (PyStr "") ;;
  text <- call_strip t ;;
  date <- call_get result "date" PyNone ;;
  if long_enough (Some text) then ret (Some text, date)
  else ret (None, PyNone).

Definition extract_with_gemini (u : string) : M (option string * pyval) :=
  emit (Invoked Gemini u) ;;;
  try_except
    (response <- call_world (requests_get env u) ;;
     raise_for_status response ;;;
     let html_content := response_text response in
     let prompt := build_prompt (Str.take (50 * 1000) html_content) in
     response_text <- call_world (gemini_api_query env prompt) ;;
     parse_gemini_response response_text)
    (catches [Repo LLMExtractionError; Lib RequestException;
              Lib JSONDecodeError; Lib KeyError])
    (fun _ => ret (None, PyNone)).

(** ** The date normalizer *)

Definition normalize_date (date_str : pyval) : M (option string) :=
  if negb (truthy date_str) then ret None
  else
    try_except
      (parsed_date <- call_reading (date_parser_parse env date_str) ;;
       ret (Some (date_isoformat (dt_date parsed_date))))
      (catches [Lib ValueError; Lib TypeError])
      (fun _ => ret None).

(** ** The orchestrator *)

(** [ExtractionResult.create_error(id_value=..., url=..., error_message=...)].
    The class of models.py is a dataclass of seven fields and declares no
    attribute [create_error]: the lookup on the class fails before any
    argument is used. *)
Definition no_create_error : exn :=
  mk_exn (Lib AttributeError)
    "type object 'ExtractionResult' has no attribute 'create_error'".

Definition ExtractionResult_create_error (id_value : string) (u : pyval)
    (error_message : string) : M ExtractionResult :=
  raise no_create_error.

Definition stage_name (s : stage) : string :=
  match s with
  | Newspaper => "newspaper"
  | Trafilatura => "trafilatura"
  | Gemini => "gemini"
  end.

(** The success record the three branches build. *)
Definition success (id_value u text : string) (normalized_date : option string)
    (s : stage) : ExtractionResult :=
  mk_ExtractionResult id_value u (Some text) normalized_date
    (Some (stage_name s)) "success" None.

(** [if text:] on the first component of a stage's result. *)
Definition found (text : option string) : option string :=
  match text with
  | Some t => if Str.nonempty t then Some t else None
  | None => None
  end.

Definition extract_from_url (u : pyval) (id_value : string)
    : M ExtractionResult :=
  match u with
  | PyStr s =>
      if negb (Str.nonempty s) || negb (Str.nonempty (Str.strip s))
      then ExtractionResult_create_error id_value (py_or u (PyStr ""))
             "Empty or invalid URL"
      else
        let u := Str.strip s in
        r <- extract_with_newspaper u ;;
        match found (fst r) with
        | Some text =>
            normalized_date <- normalize_date (snd r) ;;
            ret (success id_value u text normalized_date Newspaper)
        | None =>
        r <- extract_with_trafilatura u ;;
        match found (fst r) with
        | Some text =>
            normalized_date <- normalize_date (snd r) ;;
            ret (success id_value u text normalized_date Trafilatura)
        | None =>
        r <- extract_with_gemini u ;;
        match found (fst r) with
        | Some text =>
            normalized_date <- normalize_date (snd r) ;;
            ret (success id_value u text normalized_date Gemini)
        | None =>
            ExtractionResult_create_error id_value (PyStr u)
              "All extraction methods failed"
        end end end
  | _ =>
      (* [not url], or [not isinstance(url, str)] *)
      ExtractionResult_create_error id_value (py_or u (PyStr ""))
        "Empty or invalid URL"
  end.

(** ** The batch processor *)

Fixpoint index_of (col : string) (cols : list string) : option nat :=
  match cols with
  | [] => None
  | c :: cols' =>
      if String.eqb c col then Some O
      else option_map S (index_of col cols')
  end.

(** [col in df.columns] *)
Definition has_column (df : DataFrame) (col : string) : bool :=
  existsb (String.eqb col) (columns df).

(** [row[col]] for a row of [df.iterrows()] *)
Definition row_getitem (df : DataFrame) (row : list pyval) (col : string)
    : M pyval :=
  match index_of col (columns df) with
  | Some i =>
      match nth_error row i with
      | Some v => ret v
      | None => raise (mk_exn (Lib KeyError) col)
      end
  | None => raise (mk_exn (Lib KeyError) col)
  end.

(** The inner loop, lines 267 to 277. *)
Fixpoint process_url_columns (df : DataFrame) (row : list pyval)
    (id_value : string) (url_cols : list string)
    (results : list ExtractionResult) : M (list ExtractionResult) :=
  match url_cols with
  | [] => ret results
  | url_col :: rest =>
      u <- row_getitem df row url_col ;;
      r <- extract_from_url u id_value ;;
      process_url_columns df row id_value rest (results ++ [r])%list
  end.

(** The outer loop, lines 264 to 277. *)
Fixpoint process_rows (df : DataFrame) (config : Config)
    (rws : list (list pyval)) (results : list ExtractionResult)
    : M (list ExtractionResult) :=
  match rws with
  | [] => ret results
  | row :: rest =>
      v <- row_getitem df row (id_column config) ;;
      let id_value := builtin_str env v in
      results' <- process_url_columns df row id_value (url_columns config)
                    results ;;
      process_rows df config rest results'
  end.

(** One row of the output table, lines 282 to 290. *)
Definition output_row (r : ExtractionResult) : list (string * pyval) :=
  [ ("id", PyStr (id_value r));
    ("url", PyStr (url r));
    ("extracted_text", of_option (extracted_text r));
    ("publication_date", of_option (publication_date r));
    ("extraction_method", of_option (extraction_method r));
    ("status", PyStr (status r));
    ("error_message", of_option (error_message r)) ].

Definition process_csv (input_csv output_csv : string) (config : Config)
    : M unit :=
  df <- call_world (pd_read_csv env input_csv) ;;
  if negb (has_column df (id_column config))
  then raise (mk_exn (Lib ValueError)
                ("ID column '" ++ id_column config ++ "' not found in CSV"))
  else
    let missing_cols :=
      filter (fun col => negb (has_column df col)) (url_columns config) in
    match missing_cols with
    | _ :: _ =>
        raise (mk_exn (Lib ValueError)
                 ("URL columns not found in CSV: " ++ builtin_repr env missing_cols))
    | [] =>
        results <- process_rows df config (rows df) [] ;;
        let output_df := map output_row results in
        emit (Written output_csv output_df) ;;;
        call_world (DataFrame_to_csv env output_df output_csv)
    end.

End Pipeline.

Arguments mk_state {W} world trace.
Arguments world {W} s.
Arguments trace {W} s.
Arguments ret {W A} a _.
Arguments raise {W A} e _.
Arguments bind {W A B} m k _.
Arguments try_except {W A} body handled handler _.
Arguments call_world {W A} f _.
Arguments call_reading {W A} f _.
Arguments call_pure {W A} r _.
Arguments emit {W} e _.
Arguments mk_Environment {W}.
Arguments exceptions_issubclass {W} e.
Arguments newspaper_Article {W} e.
Arguments trafilatura_fetch_url {W} e.
Arguments trafilatura_extract {W} e.
Arguments trafilatura_extract_metadata {W} e.
Arguments requests_get {W} e.
Arguments gemini_api_query {W} e.
Arguments json_loads {W} e.
Arguments date_parser_parse {W} e.
Arguments pd_read_csv {W} e.
Arguments DataFrame_to_csv {W} e.
Arguments builtin_str {W} e.
Arguments builtin_repr {W} e.
Arguments issubclass {W} env c target.
Arguments catches {W} env handlers e.
Arguments call_get {W} v key default _.
Arguments call_strip {W} v _.
Arguments extract_with_newspaper {W} env u _.
Arguments extract_with_trafilatura {W} env u _.
Arguments raise_for_status {W} response _.
Arguments parse_gemini_response {W} env response_text _.
Arguments extract_with_gemini {W} env u _.
Arguments normalize_date {W} env date_str _.
Arguments ExtractionResult_create_error {W} id_value u error_message _.
Arguments extract_from_url {W} env u id_value _.
Arguments row_getitem {W} df row col _.
Arguments process_url_columns {W} env df row id_value url_cols results _.
Arguments process_rows {W} env df config rws results _.
Arguments process_csv {W} env input_csv output_csv config _.

(** ** Vocabulary of the properties *)

(** The stage function of each stage. *)
Definition run_stage {W} (env : Environment W) (s : stage) (u : string)
    : M W (option string * pyval) :=
  match s with
  | Newspaper => extract_with_newspaper env u
  | Trafilatura => extract_with_trafilatura env u
  | Gemini => extract_with_gemini env u
  end.

(** The fixed order of the stages. *)
Definition pipeline : list stage := [Newspaper; Trafilatura; Gemini].

(** [first_success env stages u st s text date st']: run in order from
    [st] on the URL [u], the stages before [s] return without text, and
    [s] returns [text] and [date], leaving the state [st']. *)
Inductive first_success {W} (env : Environment W)
    : list stage -> string -> state W -> stage -> string -> pyval
      -> state W -> Prop :=
| fs_here : forall s rest u st text date st',
    run_stage env s u st = (Ok (Some text, date), st') ->
    first_success env (s :: rest) u st s text date st'
| fs_later : forall s0 rest u st d0 st0 s text date st',
    run_stage env s0 u st = (Ok (None, d0), st0) ->
    first_success env rest u st0 s text date st' ->
    first_success env (s0 :: rest) u st s text date st'.

(** The stages entered up to and including [s]. *)
Definition stages_through (s : stage) : list stage :=
  match s with
  | Newspaper => [Newspaper]
  | Trafilatura => [Newspaper; Trafilatura]
  | Gemini => [Newspaper; Trafilatura; Gemini]
  end.

(** The test of line 183:
    [not url or not isinstance(url, str) or not url.strip()]. *)
Definition invalid_url (u : pyval) : bool :=
  negb (truthy u) || negb (is_str u)
  || match u with
     | PyStr s => negb (Str.nonempty (Str.strip s))
     | _ => true
     end.

(** The invariant of an [ExtractionResult]. *)
Definition result_invariant (r : ExtractionResult) : Prop :=
  (status r = "success" ->
     (exists text, extracted_text r = Some text
                   /\ text <> "" /\ 100 < String.length text)
     /\ extraction_method r <> None)
  /\ (status r = "error" ->
        extracted_text r = None /\ publication_date r = None
        /\ extraction_method r = None).

(** *** Code fences *)

Definition fence : string := "```".

(** How a response may open: with no marker, with a fence marker, or with
    a fence marker tagged json. *)
Inductive opening : Type := NoOpening | OpeningFence | OpeningFenceJson.

Definition opening_marker (o : opening) : string :=
  match o with
  | NoOpening => ""
  | OpeningFence => fence
  | OpeningFenceJson => fence ++ "json"
  end.

Definition closing_marker (closed : bool) : string :=
  if closed then fence else "".

(** A payload between optional fence markers, with whitespace around the
    markers and around the payload. *)
Definition fenced (ws1 : string) (o : opening) (ws2 payload ws3 : string)
    (closed : bool) (ws4 : string) : string :=
  ws1 ++ opening_marker o ++ ws2 ++ payload ++ ws3 ++ closing_marker closed
  ++ ws4.

Definition is_digit (c : ascii) : bool :=
  let n := nat_of_ascii c in ((48 <=? n)%nat && (n <=? 57)%nat).

Definition one_of (cs : string) (c : ascii) : bool :=
  existsb (Ascii.eqb c) (list_ascii_of_string cs).

(** The characters a JSON text accepted by [json.loads] may begin with: an
    object, an array, a string, a number, true, false, null, NaN,
    Infinity. *)
Definition json_first (c : ascii) : bool :=
  is_digit c || Ascii.eqb c (ascii_of_nat 34) || one_of "{[-tfnNI" c.

(** The characters it may end with. *)
Definition json_last (c : ascii) : bool :=
  is_digit c || Ascii.eqb c (ascii_of_nat 34) || one_of "}]elNy" c.

(** What every JSON payload satisfies: apart from surrounding whitespace
    it begins and ends as a JSON text does. *)
Definition json_payload (p : string) : bool :=
  match Str.first_char (Str.strip p), Str.last_char (Str.strip p) with
  | Some a, Some b => json_first a && json_last b
  | _, _ => false
  end.

(** A text that does not begin with a backquote nor with the letter j. *)
Definition plain_start (y : string) : Prop :=
  forall c, Str.first_char y = Some c ->
            Ascii.eqb c "`" = false /\ Ascii.eqb c "j" = false.

(** *** Canonical dates *)

Definition digit_value (c : ascii) : nat := nat_of_ascii c - 48.

Definition is_leap (y : nat) : bool :=
  ((y mod 4 =? 0)%nat && negb (y mod 100 =? 0)%nat) || (y mod 400 =? 0)%nat.

Definition days_in_month (y m : nat) : nat :=
  match m with
  | 1 | 3 | 5 | 7 | 8 | 10 | 12 => 31
  | 4 | 6 | 9 | 11 => 30
  | 2 => if is_leap y then 29 else 28
  | _ => 0
  end.

(** A date of the calendar of [datetime.date]: years 1 to 9999. *)
Definition valid_date (d : date) : bool :=
  ((1 <=? year d) && (year d <? 10 ^ 4) && (1 <=? month d) && (month d <=? 12)
   && (1 <=? day d) && (day d <=? days_in_month (year d) (month d)))%nat.

(** The canonical form: four digits, a dash, two digits, a dash, two
    digits, naming a date of the calendar. *)
Definition read_canonical_date (s : string) : option date :=
  match s with
  | String y1 (String y2 (String y3 (String y4 (String sep1
     (String m1 (String m2 (String sep2
     (String d1 (String d2 EmptyString))))))))) =>
      if forallb is_digit [y1; y2; y3; y4; m1; m2; d1; d2]
         && Ascii.eqb sep1 "-" && Ascii.eqb sep2 "-"
      then
        let d := mk_date
                   (1000 * digit_value y1 + 100 * digit_value y2
                    + 10 * digit_value y3 + digit_value y4)
                   (10 * digit_value m1 + digit_value m2)
                   (10 * digit_value d1 + digit_value d2) in
        if valid_date d then Some d else None
      else None
  | _ => None
  end.

(** What the model assumes of dateutil: a canonical date is read as the
    date it names. *)
Definition reads_canonical_dates {W} (env : Environment W) : Prop :=
  forall s d w,
    read_canonical_date s = Some d ->
    exists dt, date_parser_parse env (PyStr s) w = Ok dt /\ dt_date dt = d.

(** What the model assumes of dateutil: [parse] raises [TypeError] when its
    argument is not a string. *)
Definition rejects_non_strings {W} (env : Environment W) : Prop :=
  forall v w,
    is_str v = false ->
    exists e, date_parser_parse env v w = Raise e
              /\ exn_type e = Lib TypeError.

(** The exception is an instance of the class [c]. *)
Definition isinstance {W} (env : Environment W) (e : exn) (c : exn_class) : Prop :=
  issubclass env (exn_type e) c = true.

(** *** Tables *)

Definition written_tables (tr : list event)
    : list (string * list (list (string * pyval))) :=
  flat_map (fun ev => match ev with
                      | Written p t => [(p, t)]
                      | Invoked _ _ => []
                      end) tr.

Definition invocations (tr : list event) : list (stage * string) :=
  flat_map (fun ev => match ev with
                      | Invoked s u => [(s, u)]
                      | Written _ _ => []
                      end) tr.

(** The computations that leave the trace as it is. *)
Definition keeps_trace {W A} (m : M W A) : Prop :=
  forall st r st', m st = (r, st') -> trace st' = trace st.

(** The computations that hand no table to [to_csv]. *)
Definition writes_nothing {W A} (m : M W A) : Prop :=
  forall st r st',
    m st = (r, st') -> written_tables (trace st') = written_tables (trace st).

(** The cell of a row under a column name. *)
Definition cell (df : DataFrame) (row : list pyval) (col : string)
    : option pyval :=
  match index_of col (columns df) with
  | Some i => nth_error row i
  | None => None
  end.

(** The pairs of a row and a URL column, rows first. *)
Definition pairs (rws : list (list pyval)) (url_cols : list string)
    : list (list pyval * string) :=
  flat_map (fun row => map (fun col => (row, col)) url_cols) rws.

(** The result [r] belongs to the pair [p]: its identifier is that of the
    row and its URL the stripped cell of the column. *)
Definition comes_from {W} (env : Environment W) (df : DataFrame)
    (config : Config) (p : list pyval * string) (r : ExtractionResult)
    : Prop :=
  exists v s,
    cell df (fst p) (id_column config) = Some v
    /\ id_value r = builtin_str env v
    /\ cell df (fst p) (snd p) = Some (PyStr s)
    /\ url r = Str.strip s.

(** The classes each stage function names in its [except] clause. *)
Definition handled_by (s : stage) : list exn_class :=
  match s with
  | Newspaper =>
      [Repo ArticleDownloadError; Repo ArticleParseError;
       Lib ValueError; Lib OSError]
  | Trafilatura => [Repo HTMLFetchError; Lib ValueError; Lib OSError]
  | Gemini =>
      [Repo LLMExtractionError; Lib RequestException;
       Lib JSONDecodeError; Lib KeyError]
  end.

(** What the model assumes of dateutil: the [datetime] it returns names a
    date of the calendar. *)
Definition returns_calendar_dates {W} (env : Environment W) : Prop :=
  forall v w dt,
    date_parser_parse env v w = Ok dt -> valid_date (dt_date dt) = true.

(** Every row has one cell per column. *)
Definition rectangular (df : DataFrame) : Prop :=
  forall row, In row (rows df) -> length row = length (columns df).

(** The environment in which [requests.get] answers with [response]. *)
Definition with_response {W} (env : Environment W) (response : Response)
    : Environment W :=
  mk_Environment
    (exceptions_issubclass env)
    (newspaper_Article env)
    (trafilatura_fetch_url env)
    (trafilatura_extract env)
    (trafilatura_extract_metadata env)
    (fun _ w => (Ok response, w))
    (gemini_api_query env)
    (json_loads env)
    (date_parser_parse env)
    (pd_read_csv env)
    (DataFrame_to_csv env)
    (builtin_str env)
    (builtin_repr env).

(** The stages entered by one call of the orchestrator: a prefix of the
    pipeline. *)
Definition pipeline_prefixes : list (list stage) :=
  [[]; [Newspaper]; [Newspaper; Trafilatura];
   [Newspaper; Trafilatura; Gemini]].

(** [d.get("date")] *)
Definition date_field (d : list (string * pyval)) : pyval :=
  match dict_lookup d "date" with Some v => v | None => PyNone end.

(** [all_declined env stages u st st']: run in order from [st] on the URL
    [u], every stage of [stages] returns without a text, leaving the state
    [st']. *)
Inductive all_declined {W} (env : Environment W)
    : list stage -> string -> state W -> state W -> Prop :=
| ad_nil : forall u st, all_declined env [] u st st
| ad_cons : forall s rest u st d0 st0 st',
    run_stage env s u st = (Ok (None, d0), st0) ->
    all_declined env rest u st0 st' ->
    all_declined env (s :: rest) u st st'.

(** ** Concrete environments *)

Module Examples.

(** An article body of more than a hundred characters. *)
Definition article_body : string :=
  "The city council approved the new transit plan on Monday after a long debate, "
  ++ "promising faster buses and safer crossings by next spring.".

Definition teaser : string := "Subscribe to continue reading.".

Definition page_html : string := "<html><body><p>Subscribe</p></body></html>".

Definition midnight (d : date) : datetime := mk_datetime d 0 0 0 0 None.

(** A date parser that reads canonical dates and nothing else. *)
Definition parse_canonical (v : pyval) (w : unit) : result datetime :=
  match v with
  | PyStr s =>
      match read_canonical_date s with
      | Some d => Ok (midnight d)
      | None => Raise (mk_exn (Lib ParserError) ("Unknown string format: " ++ s))
      end
  | _ =>
      Raise (mk_exn (Lib TypeError)
               ("Parser must be a string or character stream, not "
                ++ type_name v))
  end.

(** [json.loads] on the texts listed in [table]. *)
Definition loads_from (table : list (string * pyval)) (s : string)
    : result pyval :=
  match find (fun p => String.eqb (fst p) s) table with
  | Some p => Ok (snd p)
  | None => Raise (mk_exn (Lib JSONDecodeError) "Expecting value")
  end.

(** [str] on the cells the examples use. *)
Definition str_of_cell (v : pyval) : string :=
  match v with
  | PyStr s => s
  | PyInt z => NilZero.string_of_int (Z.to_int z)
  | PyNone => "None"
  | PyBool b => if b then "True" else "False"
  | PyFloat FNaN => "nan"
  | _ => ""
  end.

(** [repr] of a list of column names without quotes or escapes. *)
Definition repr_of_names (l : list string) : string :=
  "[" ++ String.concat ", " (map (fun s => "'" ++ s ++ "'") l) ++ "]".

(** A world with one page: what each library answers for it. *)
Definition site (article : result Article) (downloaded : result (option string))
    (page : result Response) (completion : result string)
    (json : list (string * pyval)) (table : result DataFrame)
    : Environment unit :=
  mk_Environment
    (fun _ _ => false)
    (fun _ w => (article, w))
    (fun _ w => (downloaded, w))
    (fun html => Ok (Some html))
    (fun _ => Ok None)
    (fun _ w => (page, w))
    (fun _ w => (completion, w))
    (loads_from json)
    parse_canonical
    (fun _ w => (table, w))
    (fun _ _ w => (Ok tt, w))
    str_of_cell
    repr_of_names.

Definition connection_error {A} : result A :=
  Raise (mk_exn (Lib RequestException) "Connection refused").

Definition no_table : result DataFrame :=
  Raise (mk_exn (Lib OSError) "No such file or directory").

Definition start : state unit := mk_state tt [].

Definition page_url : string := "https://example.org/news/transit-plan".

(** The first stage finds a teaser, the second the article. *)
Definition second_stage_site : Environment unit :=
  site (Ok (mk_Article teaser None)) (Ok (Some article_body))
    connection_error connection_error [] no_table.

(** No stage finds a text. *)
Definition unreadable_site : Environment unit :=
  site (Ok (mk_Article "" None)) (Ok None)
    connection_error connection_error [] no_table.

(** The completion [{"text": null, "date": null}]. *)
Definition null_text_completion : string :=
  "{" ++ Str.dq ++ "text" ++ Str.dq ++ ": null, "
  ++ Str.dq ++ "date" ++ Str.dq ++ ": null}".

(** The first two stages find nothing and the model answers with a null
    text. *)
Definition null_text_site : Environment unit :=
  site (Ok (mk_Article "" None)) (Ok None)
    (Ok (mk_Response 200 page_html)) (Ok null_text_completion)
    [(null_text_completion, PyDict [("text", PyNone); ("date", PyNone)])]
    no_table.

(** The payload [{"text": "<article_body>", "date": "2024-01-15"}]. *)
Definition article_payload : string :=
  "{" ++ Str.dq ++ "text" ++ Str.dq ++ ": " ++ Str.dq ++ article_body ++ Str.dq
  ++ ", " ++ Str.dq ++ "date" ++ Str.dq ++ ": " ++ Str.dq ++ "2024-01-15"
  ++ Str.dq ++ "}".

Definition llm_site : Environment unit :=
  site (Ok (mk_Article "" None)) (Ok None)
    (Ok (mk_Response 200 page_html))
    (Ok ("```json" ++ Str.nl ++ article_payload ++ Str.nl ++ "```"))
    [(article_payload,
      PyDict [("text", PyStr article_body); ("date", PyStr "2024-01-15")])]
    no_table.

(** A table of one row whose URL cell is empty: pandas reads a NaN. *)
Definition one_empty_cell : DataFrame :=
  mk_DataFrame ["id"; "url"] [[PyStr "a1"; PyFloat FNaN]].

Definition id_and_url : Config := mk_Config "id" ["url"].

Definition empty_cell_site : Environment unit :=
  site (Ok (mk_Article "" None)) (Ok None)
    connection_error connection_error [] (Ok one_empty_cell).

(** A table of two rows and two URL columns, every page readable. *)
Definition two_by_two : DataFrame :=
  mk_DataFrame ["id"; "url"; "mirror"]
    [[PyStr "a1"; PyStr page_url; PyStr "https://mirror.example.org/1"];
     [PyStr "a2"; PyStr "https://example.org/news/2";
      PyStr "https://mirror.example.org/2"]].

Definition id_url_mirror : Config := mk_Config "id" ["url"; "mirror"].

Definition readable_site : Environment unit :=
  site (Ok (mk_Article article_body None)) (Ok None)
    connection_error connection_error [] (Ok two_by_two).

(** A configuration that names a column the table lacks. *)
Definition wrong_id : Config := mk_Config "article_id" ["url"].

(** The page is not found: status 404. *)
Definition not_found_site : Environment unit :=
  site (Ok (mk_Article "" None)) (Ok None)
    (Ok (mk_Response 404 "<html>Not Found</html>")) connection_error []
    no_table.

Fixpoint replicate (n : nat) (c : ascii) : string :=
  match n with
  | O => EmptyString
  | S n' => String c (replicate n' c)
  end.

(** A page of fifty thousand characters followed by [tail]. *)
Definition long_page (tail : string) : Response :=
  mk_Response 200 (replicate (50 * 1000) "x" ++ tail).

(** The completion [{"date": "2024-01-15"}], without a text. *)
Definition date_only_completion : string :=
  "{" ++ Str.dq ++ "date" ++ Str.dq ++ ": " ++ Str.dq ++ "2024-01-15"
  ++ Str.dq ++ "}".

Definition date_only_site : Environment unit :=
  site (Ok (mk_Article "" None)) (Ok None)
    (Ok (mk_Response 200 page_html)) (Ok date_only_completion)
    [(date_only_completion, PyDict [("date", PyStr "2024-01-15")])]
    no_table.


(** A string of thirteen decimal digits, such as a time stamp in
    milliseconds. *)
Definition thirteen_digits (s : string) : bool :=
  forallb is_digit (list_ascii_of_string s)
  && (String.length s =? 13)%nat.

Definition year_overflow : exn :=
  mk_exn (Lib OverflowError) "signed integer is greater than maximum".

(** dateutil on the examples: a canonical date is read; a bare number of
    thirteen digits is taken for a year, which does not fit a C int
    ([OverflowError], as the documentation of [parse] announces); any
    other string is rejected with a [ParserError]. *)
Definition parse_or_overflow (v : pyval) (w : unit) : result datetime :=
  match v with
  | PyStr s =>
      match read_canonical_date s with
      | Some d => Ok (midnight d)
      | None =>
          if thirteen_digits s then Raise year_overflow
          else Raise (mk_exn (Lib ParserError)
                        ("Unknown string format: " ++ s))
      end
  | _ =>
      Raise (mk_exn (Lib TypeError)
               ("Parser must be a string or character stream, not "
                ++ type_name v))
  end.

Definition epoch_date : string := "1700000000000".

(** The payload [{"text": "<article_body>", "date": "1700000000000"}]. *)
Definition epoch_payload : string :=
  "{" ++ Str.dq ++ "text" ++ Str.dq ++ ": " ++ Str.dq ++ article_body ++ Str.dq
  ++ ", " ++ Str.dq ++ "date" ++ Str.dq ++ ": " ++ Str.dq ++ epoch_date
  ++ Str.dq ++ "}".

(** The first two stages find nothing; the model returns the article and,
    as its date, a time stamp in milliseconds. *)
Definition epoch_site : Environment unit :=
  mk_Environment
    (fun _ _ => false)
    (fun _ w => (Ok (mk_Article "" None), w))
    (fun _ w => (Ok None, w))
    (fun html => Ok (Some html))
    (fun _ => Ok None)
    (fun _ w => (Ok (mk_Response 200 page_html), w))
    (fun _ w => (Ok epoch_payload, w))
    (loads_from
       [(epoch_payload,
         PyDict [("text", PyStr article_body); ("date", PyStr epoch_date)])])
    parse_or_overflow
    (fun _ w => (no_table, w))
    (fun _ _ w => (Ok tt, w))
    str_of_cell
    repr_of_names.

End Examples.

(** * Properties *)

(** ** Strings *)

Module StrFacts.
Import Str.

Lemma append_nil_r (s : string) : s ++ "" = s.
Proof. induction s; simpl; congruence. Qed.

Lemma append_assoc (a b c : string) : (a ++ b) ++ c = a ++ b ++ c.
Proof. induction a; simpl; congruence. Qed.

Lemma length_append (a b : string) :
  String.length (a ++ b) = String.length a + String.length b.
Proof. induction a; simpl; congruence. Qed.

Lemma all_space_app (a b : string) :
  all_space a = true -> all_space b = true -> all_space (a ++ b) = true.
Proof.
  induction a as [|c a IH]; simpl; intros Ha Hb; [exact Hb|].
  apply andb_prop in Ha as [Hc Ha]. rewrite Hc. simpl. auto.
Qed.

Lemma first_char_app (a b : string) c :
  first_char a = Some c -> first_char (a ++ b) = Some c.
Proof. destruct a; simpl; congruence. Qed.

Lemma last_char_app (a b : string) c :
  last_char b = Some c -> last_char (a ++ b) = Some c.
Proof.
  intros Hb. induction a as [|x a IH]; simpl; [exact Hb|].
  destruct (a ++ b) eqn:E; [discriminate IH | exact IH].
Qed.

Lemma lstrip_app_space (ws s : string) :
  all_space ws = true -> lstrip (ws ++ s) = lstrip s.
Proof.
  induction ws as [|c ws IH]; simpl; intros H; [reflexivity|].
  apply andb_prop in H as [Hc Hs]. rewrite Hc. auto.
Qed.

Lemma lstrip_solid (s : string) c :
  first_char s = Some c -> isspace c = false -> lstrip s = s.
Proof.
  destruct s; simpl; [discriminate|]. intros [= ->] ->. reflexivity.
Qed.

Lemma rstrip_all_space (ws : string) : all_space ws = true -> rstrip ws = "".
Proof.
  induction ws as [|c ws IH]; simpl; intros H; [reflexivity|].
  apply andb_prop in H as [Hc Hs]. rewrite (IH Hs), Hc. reflexivity.
Qed.

Lemma rstrip_app_space (s ws : string) :
  all_space ws = true -> rstrip (s ++ ws) = rstrip s.
Proof.
  intros H. induction s as [|c s IH]; simpl.
  - apply rstrip_all_space, H.
  - rewrite IH. reflexivity.
Qed.

Lemma rstrip_solid (s : string) c :
  last_char s = Some c -> isspace c = false -> rstrip s = s.
Proof.
  induction s as [|x s IH]; simpl; [discriminate|].
  destruct s as [|y s].
  - intros [= ->] ->. reflexivity.
  - intros Hl Hc. rewrite (IH Hl Hc). reflexivity.
Qed.

(** Stripping removes the whitespace around a text that begins and ends
    with other characters. *)
Lemma strip_padded (l x r : string) a b :
  all_space l = true -> all_space r = true ->
  first_char x = Some a -> isspace a = false ->
  last_char x = Some b -> isspace b = false ->
  strip (l ++ x ++ r) = x.
Proof.
  intros Hl Hr Ha Hsa Hb Hsb. unfold strip.
  rewrite (lstrip_app_space l _ Hl).
  rewrite (lstrip_solid (x ++ r) a (first_char_app x r a Ha) Hsa).
  rewrite (rstrip_app_space x r Hr).
  apply (rstrip_solid x b Hb Hsb).
Qed.

Lemma lstrip_decompose (s : string) :
  exists l, all_space l = true /\ s = l ++ lstrip s.
Proof.
  induction s as [|c s [l [Hl E]]]; simpl.
  - exists "". auto.
  - destruct (isspace c) eqn:Hc.
    + exists (String c l). simpl. rewrite Hc, Hl. split; [reflexivity|].
      f_equal. exact E.
    + exists "". auto.
Qed.

Lemma rstrip_decompose (s : string) :
  exists r, all_space r = true /\ s = rstrip s ++ r.
Proof.
  induction s as [|c s [r [Hr E]]]; simpl.
  - exists "". auto.
  - destruct (rstrip s) as [|y t] eqn:Hs.
    + simpl in E. subst s. destruct (isspace c) eqn:Hc.
      * exists (String c r). simpl. rewrite Hc, Hr. auto.
      * exists r. auto.
    + exists r. split; [exact Hr|]. simpl. f_equal. exact E.
Qed.

Lemma strip_decompose (s : string) :
  exists l r, all_space l = true /\ all_space r = true
              /\ s = l ++ strip s ++ r.
Proof.
  destruct (lstrip_decompose s) as [l [Hl El]].
  destruct (rstrip_decompose (lstrip s)) as [r [Hr Er]].
  exists l, r. repeat split; auto. unfold strip. congruence.
Qed.

Lemma first_char_strip (s : string) c :
  first_char (strip s) = Some c -> isspace c = false.
Proof.
  unfold strip. intros H.
  assert (Hl : forall t, first_char (lstrip t) = Some c -> isspace c = false).
  { induction t as [|x t IH]; simpl; [discriminate|].
    destruct (isspace x) eqn:Hx; [exact IH|]. simpl. congruence. }
  assert (Hr : forall t, first_char (rstrip t) = Some c ->
                         first_char t = Some c).
  { destruct t as [|x t]; simpl; [discriminate|].
    destruct (rstrip t); [destruct (isspace x)|]; simpl; congruence. }
  apply (Hl s), Hr, H.
Qed.

Lemma last_char_rstrip (s : string) c :
  last_char (rstrip s) = Some c -> isspace c = false.
Proof.
  induction s as [|x s IH]; simpl; [discriminate|].
  destruct (rstrip s) as [|y t] eqn:Hs.
  - destruct (isspace x) eqn:Hx; simpl; congruence.
  - intros H. apply IH. exact H.
Qed.

Lemma last_char_strip (s : string) c :
  last_char (strip s) = Some c -> isspace c = false.
Proof. apply last_char_rstrip. Qed.

Lemma endswith_refl (p : string) : endswith p p = true.
Proof. destruct p; simpl; rewrite ?Ascii.eqb_refl, ?String.eqb_refl; reflexivity. Qed.

Lemma endswith_app (s p : string) : endswith (s ++ p) p = true.
Proof.
  induction s as [|c s IH]; simpl.
  - apply endswith_refl.
  - rewrite IH. apply orb_true_r.
Qed.

Lemma endswith_last (s p : string) c :
  last_char p = Some c -> endswith s p = true -> last_char s = Some c.
Proof.
  intros Hp. induction s as [|x s IH]; simpl.
  - destruct p; simpl in *; [discriminate Hp | discriminate].
  - intros H. apply orb_prop in H as [H|H].
    + destruct p as [|y p]; [discriminate H|].
      apply andb_prop in H as [Hxy H].
      apply String.eqb_eq in H. apply Ascii.eqb_eq in Hxy. subst. exact Hp.
    + specialize (IH H). destruct s; [discriminate IH | exact IH].
Qed.

Lemma take_app (s t : string) : take (String.length s) (s ++ t) = s.
Proof. induction s; simpl; [destruct t; reflexivity | congruence]. Qed.

Lemma drop_last_app (s p : string) :
  drop_last (String.length p) (s ++ p) = s.
Proof.
  unfold drop_last. rewrite length_append.
  replace (String.length s + String.length p - String.length p)
    with (String.length s) by lia.
  apply take_app.
Qed.

End StrFacts.

(** ** Code fences *)

Module FenceFacts.
Import Str StrFacts.

Local Open Scope char_scope.

Lemma isspace_plain c :
  isspace c = true -> Ascii.eqb c "`" = false /\ Ascii.eqb c "j" = false.
Proof.
  destruct c as [[] [] [] [] [] [] [] []]; vm_compute; intros H;
    try discriminate H; split; reflexivity.
Qed.

Lemma json_first_plain c :
  json_first c = true ->
  isspace c = false /\ Ascii.eqb c "`" = false /\ Ascii.eqb c "j" = false.
Proof.
  destruct c as [[] [] [] [] [] [] [] []]; vm_compute; intros H;
    try discriminate H; repeat split; reflexivity.
Qed.

Lemma json_last_plain c :
  json_last c = true -> isspace c = false /\ Ascii.eqb c "`" = false.
Proof.
  destruct c as [[] [] [] [] [] [] [] []]; vm_compute; intros H;
    try discriminate H; split; reflexivity.
Qed.

Local Close Scope char_scope.

Lemma plain_start_padded (ws core rest : string) a :
  all_space ws = true -> first_char core = Some a -> json_first a = true ->
  plain_start (ws ++ core ++ rest).
Proof.
  intros Hws Ha Hj c. destruct ws as [|x ws]; simpl.
  - rewrite (first_char_app core rest a Ha). intros [= <-].
    destruct (json_first_plain a Hj) as [_ [? ?]]. auto.
  - intros [= <-]. simpl in Hws. apply andb_prop in Hws as [Hx _].
    apply isspace_plain, Hx.
Qed.

Ltac by_assoc :=
  repeat rewrite append_assoc; cbn [append]; rewrite ?append_nil_r;
  reflexivity.

Lemma plain_start_within (y ws core rest : string) a :
  y = ws ++ core ++ rest ->
  all_space ws = true -> first_char core = Some a -> json_first a = true ->
  plain_start y.
Proof. intros ->. apply plain_start_padded. Qed.

Lemma startswith_fence_plain (y : string) :
  plain_start y -> startswith y fence = false.
Proof.
  intros H. destruct y as [|c y]; [reflexivity|].
  destruct (H c eq_refl) as [Hc _]. unfold fence. cbn [startswith append].
  rewrite Ascii.eqb_sym, Hc. reflexivity.
Qed.

Lemma startswith_fence_json_plain (y : string) :
  plain_start y -> startswith y (fence ++ "json") = false.
Proof.
  intros H. destruct y as [|c y]; [reflexivity|].
  destruct (H c eq_refl) as [Hc _]. unfold fence. cbn [startswith append].
  rewrite Ascii.eqb_sym, Hc. reflexivity.
Qed.

Lemma startswith_json_plain (y : string) :
  plain_start y -> startswith (fence ++ y) (fence ++ "json") = false.
Proof.
  intros H. destruct y as [|c y]; [reflexivity|].
  destruct (H c eq_refl) as [_ Hc]. unfold fence.
  cbn [startswith append]. rewrite !Ascii.eqb_refl. cbn [andb].
  rewrite Ascii.eqb_sym, Hc. reflexivity.
Qed.

Lemma endswith_fence_plain (y : string) b :
  last_char y = Some b -> Ascii.eqb b "`" = false ->
  endswith y fence = false.
Proof.
  intros Hb Hne. destruct (endswith y fence) eqn:E; [|reflexivity].
  assert (Hl : last_char y = Some "`"%char)
    by (apply (endswith_last y fence); [reflexivity | exact E]).
  rewrite Hb in Hl. injection Hl as ->. discriminate Hne.
Qed.

(** The markers are removed given the text between the surrounding
    whitespace: [x] is the response once stripped, [y] what follows the
    opening marker, [z] what precedes the closing one. *)
Lemma strip_code_fences_steps (l x r : string) (o : opening) (y : string)
    (closed : bool) (z core : string) f g :
  all_space l = true -> all_space r = true ->
  first_char x = Some f -> isspace f = false ->
  last_char x = Some g -> isspace g = false ->
  x = opening_marker o ++ y ->
  plain_start y ->
  y = z ++ closing_marker closed ->
  (closed = false -> exists b, last_char z = Some b /\ Ascii.eqb b "`" = false) ->
  strip z = core ->
  strip_code_fences (l ++ x ++ r) = core.
Proof.
  intros Hl Hr Hf Hsf Hg Hsg Hx Hy Hz Hlast Hcore.
  unfold strip_code_fences. cbv zeta.
  rewrite (strip_padded l x r f g Hl Hr Hf Hsf Hg Hsg).
  assert (E1 : (if startswith x (fence ++ "json") then drop 7 x else x)
               = match o with OpeningFenceJson => y | _ => x end).
  { subst x. destruct o; simpl opening_marker.
    - change ("" ++ y) with y. rewrite (startswith_fence_json_plain y Hy).
      reflexivity.
    - rewrite (startswith_json_plain y Hy). reflexivity.
    - reflexivity. }
  change "```json" with (fence ++ "json"). rewrite E1.
  assert (E2 : (let t := match o with OpeningFenceJson => y | _ => x end in
                if startswith t fence then drop 3 t else t) = y).
  { subst x. destruct o; cbn [opening_marker]; cbv zeta.
    - change ("" ++ y) with y. rewrite (startswith_fence_plain y Hy).
      reflexivity.
    - reflexivity.
    - rewrite (startswith_fence_plain y Hy). reflexivity. }
  cbv zeta in E2. change "```" with fence. rewrite E2.
  assert (E3 : (if endswith y fence then drop_last 3 y else y) = z).
  { subst y. destruct closed; simpl closing_marker.
    - rewrite endswith_app. apply (drop_last_app z fence).
    - rewrite append_nil_r. destruct (Hlast eq_refl) as [b [Hb Hne]].
      rewrite (endswith_fence_plain z b Hb Hne). reflexivity. }
  rewrite E3. exact Hcore.
Qed.

Ltac reassociate :=
  unfold fenced, fence; cbn [opening_marker closing_marker];
  repeat rewrite append_assoc; cbn [append]; rewrite ?append_nil_r;
  reflexivity.

Lemma strip_code_fences_fenced (ws1 : string) (o : opening)
    (ws2 payload ws3 : string) (closed : bool) (ws4 : string) :
  json_payload payload = true ->
  all_space ws1 = true -> all_space ws2 = true ->
  all_space ws3 = true -> all_space ws4 = true ->
  strip_code_fences (fenced ws1 o ws2 payload ws3 closed ws4) = strip payload.
Proof.
  intros Hj H1 H2 H3 H4. unfold json_payload in Hj.
  destruct (strip_decompose payload) as [pl [pr [Hpl [Hpr Ep]]]].
  remember (strip payload) as core eqn:Ecore.
  destruct (first_char core) as [a|] eqn:Ha; [|discriminate Hj].
  destruct (last_char core) as [b|] eqn:Hb; [|discriminate Hj].
  apply andb_prop in Hj as [Hja Hjb].
  destruct (json_first_plain a Hja) as [Hsa _].
  destruct (json_last_plain b Hjb) as [Hsb Hqb].
  assert (HA : all_space (ws2 ++ pl) = true) by (apply all_space_app; auto).
  assert (HB : all_space (pr ++ ws3) = true) by (apply all_space_app; auto).
  assert (Hcore : forall l r, all_space l = true -> all_space r = true ->
                              strip (l ++ core ++ r) = core)
    by (intros l r Hl Hr; apply (strip_padded l core r a b); auto).
  assert (Hcore0 : strip core = core).
  { pose proof (Hcore "" "" eq_refl eq_refl) as H0. cbn [append] in H0.
    rewrite append_nil_r in H0. exact H0. }
  assert (Hq : isspace "`" = false) by reflexivity.
  rewrite Ep. clear Ep Ecore payload.
  destruct o, closed.
  - (* no opening marker, a closing marker *)
    replace (fenced ws1 NoOpening ws2 (pl ++ core ++ pr) ws3 true ws4)
      with ((ws1 ++ ws2 ++ pl) ++ ((core ++ pr ++ ws3) ++ fence) ++ ws4)
      by reassociate.
    apply (strip_code_fences_steps _ _ _ NoOpening
             ((core ++ pr ++ ws3) ++ fence) true (core ++ pr ++ ws3) core a "`");
      auto.
    + apply all_space_app; auto.
    + rewrite append_assoc. apply first_char_app, Ha.
    + apply last_char_app. reflexivity.
    + apply (plain_start_within _ "" core ((pr ++ ws3) ++ fence) a); auto.
      by_assoc.
    + discriminate.
    + apply (Hcore "" (pr ++ ws3)); auto.
  - (* no marker at all *)
    replace (fenced ws1 NoOpening ws2 (pl ++ core ++ pr) ws3 false ws4)
      with ((ws1 ++ ws2 ++ pl) ++ core ++ (pr ++ ws3 ++ ws4))
      by reassociate.
    apply (strip_code_fences_steps _ _ _ NoOpening core false core core a b);
      auto.
    + apply all_space_app; auto.
    + rewrite <- append_assoc. apply all_space_app; auto.
    + apply (plain_start_within _ "" core "" a); auto. by_assoc.
    + cbn [closing_marker]. rewrite append_nil_r. reflexivity.
    + intros _. exists b. auto.
  - (* a fence marker on both sides *)
    replace (fenced ws1 OpeningFence ws2 (pl ++ core ++ pr) ws3 true ws4)
      with (ws1 ++ (fence ++ ((ws2 ++ pl) ++ core ++ pr ++ ws3) ++ fence) ++ ws4)
      by reassociate.
    apply (strip_code_fences_steps _ _ _ OpeningFence
             (((ws2 ++ pl) ++ core ++ pr ++ ws3) ++ fence) true
             ((ws2 ++ pl) ++ core ++ pr ++ ws3) core "`" "`"); auto.
    + apply last_char_app, last_char_app. reflexivity.
    + apply (plain_start_within _ (ws2 ++ pl) core ((pr ++ ws3) ++ fence) a);
        auto.
      by_assoc.
    + discriminate.
  - (* an opening fence marker only *)
    replace (fenced ws1 OpeningFence ws2 (pl ++ core ++ pr) ws3 false ws4)
      with (ws1 ++ (fence ++ (ws2 ++ pl) ++ core) ++ (pr ++ ws3 ++ ws4))
      by reassociate.
    apply (strip_code_fences_steps _ _ _ OpeningFence
             ((ws2 ++ pl) ++ core) false ((ws2 ++ pl) ++ core) core "`" b);
      auto.
    + rewrite <- append_assoc. apply all_space_app; auto.
    + apply last_char_app, last_char_app, Hb.
    + apply (plain_start_within _ (ws2 ++ pl) core "" a); auto. by_assoc.
    + cbn [closing_marker]. rewrite append_nil_r. reflexivity.
    + intros _. exists b. split; [apply last_char_app, Hb | exact Hqb].
    + rewrite <- (append_nil_r core) at 1. apply Hcore; auto.
  - (* a tagged opening marker and a closing marker *)
    replace (fenced ws1 OpeningFenceJson ws2 (pl ++ core ++ pr) ws3 true ws4)
      with (ws1 ++ ((fence ++ "json")
                    ++ ((ws2 ++ pl) ++ core ++ pr ++ ws3) ++ fence) ++ ws4)
      by reassociate.
    apply (strip_code_fences_steps _ _ _ OpeningFenceJson
             (((ws2 ++ pl) ++ core ++ pr ++ ws3) ++ fence) true
             ((ws2 ++ pl) ++ core ++ pr ++ ws3) core "`" "`"); auto.
    + apply last_char_app, last_char_app. reflexivity.
    + apply (plain_start_within _ (ws2 ++ pl) core ((pr ++ ws3) ++ fence) a);
        auto.
      by_assoc.
    + discriminate.
  - (* a tagged opening marker only *)
    replace (fenced ws1 OpeningFenceJson ws2 (pl ++ core ++ pr) ws3 false ws4)
      with (ws1 ++ ((fence ++ "json") ++ (ws2 ++ pl) ++ core)
            ++ (pr ++ ws3 ++ ws4))
      by reassociate.
    apply (strip_code_fences_steps _ _ _ OpeningFenceJson
             ((ws2 ++ pl) ++ core) false ((ws2 ++ pl) ++ core) core "`" b);
      auto.
    + rewrite <- append_assoc. apply all_space_app; auto.
    + apply last_char_app, last_char_app, Hb.
    + apply (plain_start_within _ (ws2 ++ pl) core "" a); auto. by_assoc.
    + cbn [closing_marker]. rewrite append_nil_r. reflexivity.
    + intros _. exists b. split; [apply last_char_app, Hb | exact Hqb].
    + rewrite <- (append_nil_r core) at 1. apply Hcore; auto.
Qed.

Lemma strip_code_fences_bare (payload : string) :
  json_payload payload = true ->
  strip_code_fences payload = strip payload.
Proof.
  intros Hj.
  rewrite <- (strip_code_fences_fenced "" NoOpening "" payload "" false "")
    by auto.
  unfold fenced. cbn [opening_marker closing_marker append].
  rewrite append_nil_r. reflexivity.
Qed.

End FenceFacts.

(** ** The monad *)

Section MonadFacts.

Context {W : Type}.

Lemma bind_ok {A B} (m : M W A) (k : A -> M W B) st b st' :
  bind m k st = (Ok b, st') ->
  exists a st1, m st = (Ok a, st1) /\ k a st1 = (Ok b, st').
Proof.
  unfold bind. destruct (m st) as [[a|e] st1]; intros H;
    [eauto | discriminate H].
Qed.

Lemma bind_step {A B} (m : M W A) (k : A -> M W B) st a st1 :
  m st = (Ok a, st1) -> bind m k st = k a st1.
Proof. unfold bind. intros ->. reflexivity. Qed.

Lemma bind_raise {A B} (m : M W A) (k : A -> M W B) st e st1 :
  m st = (Raise e, st1) -> bind m k st = (Raise e, st1).
Proof. unfold bind. intros ->. reflexivity. Qed.

(** A handler that gives up returns nothing: what a guarded body returns
    with a text, the body itself returned. *)
Lemma try_except_found {D} (body : M W (option string * D)) handled none
    st text d st' :
  try_except body handled (fun _ => ret (None, none)) st
    = (Ok (Some text, d), st') ->
  body st = (Ok (Some text, d), st').
Proof.
  unfold try_except, ret. destruct (body st) as [[a|e] st1]; intros H.
  - exact H.
  - destruct (handled e); discriminate H.
Qed.

Lemma keeps_trace_ret {A} (a : A) : keeps_trace (ret (W:=W) a).
Proof. intros st r st' [= _ <-]. reflexivity. Qed.

Lemma keeps_trace_raise {A} e : keeps_trace (raise (W:=W) (A:=A) e).
Proof. intros st r st' [= _ <-]. reflexivity. Qed.

Lemma keeps_trace_call_world {A} (f : W -> result A * W) :
  keeps_trace (call_world f).
Proof.
  intros st r st'. unfold call_world. destruct (f (world st)).
  intros [= _ <-]. reflexivity.
Qed.

Lemma keeps_trace_call_pure {A} (x : result A) :
  keeps_trace (call_pure (W:=W) x).
Proof. intros st r st' [= _ <-]. reflexivity. Qed.

Lemma keeps_trace_call_reading {A} (f : W -> result A) :
  keeps_trace (call_reading f).
Proof. intros st r st' [= _ <-]. reflexivity. Qed.

Lemma keeps_trace_bind {A B} (m : M W A) (k : A -> M W B) :
  keeps_trace m -> (forall a, keeps_trace (k a)) -> keeps_trace (bind m k).
Proof.
  intros Hm Hk st r st'. unfold bind.
  destruct (m st) as [[a|e] st1] eqn:E; intros H.
  - rewrite (Hk a _ _ _ H). apply (Hm _ _ _ E).
  - injection H as _ <-. apply (Hm _ _ _ E).
Qed.

Lemma keeps_trace_try_except {A} (body : M W A) handled handler :
  keeps_trace body -> (forall e, keeps_trace (handler e)) ->
  keeps_trace (try_except body handled handler).
Proof.
  intros Hb Hh st r st'. unfold try_except.
  destruct (body st) as [[a|e] st1] eqn:E; intros H.
  - injection H as _ <-. apply (Hb _ _ _ E).
  - destruct (handled e).
    + rewrite (Hh e _ _ _ H). apply (Hb _ _ _ E).
    + injection H as _ <-. apply (Hb _ _ _ E).
Qed.

Lemma keeps_trace_call_get (v : pyval) key default :
  keeps_trace (call_get (W:=W) v key default).
Proof.
  destruct v; first [apply keeps_trace_ret | apply keeps_trace_raise].
Qed.

Lemma keeps_trace_call_strip (v : pyval) : keeps_trace (call_strip (W:=W) v).
Proof.
  destruct v; first [apply keeps_trace_ret | apply keeps_trace_raise].
Qed.

Lemma keeps_trace_raise_for_status (r : Response) :
  keeps_trace (raise_for_status (W:=W) r).
Proof.
  unfold raise_for_status.
  destruct (_ && _)%bool; first [apply keeps_trace_ret | apply keeps_trace_raise].
Qed.

(** After [emit ev] and a computation that keeps the trace, the trace has
    grown by [ev]. *)
Lemma emit_then {A} ev (m : M W A) st r st' :
  keeps_trace m ->
  bind (emit ev) (fun _ => m) st = (r, st') ->
  trace st' = (trace st ++ [ev])%list.
Proof.
  intros Hm. unfold bind, emit. intros H. apply Hm in H. exact H.
Qed.

End MonadFacts.

Create HintDb trace.

#[local] Hint Resolve keeps_trace_ret keeps_trace_raise keeps_trace_call_world
  keeps_trace_call_pure keeps_trace_call_reading keeps_trace_call_get
  keeps_trace_call_strip keeps_trace_raise_for_status : trace.

Ltac keeps_trace_tac :=
  repeat first
    [ apply keeps_trace_bind; [|intros ?]
    | apply keeps_trace_try_except; [|intros ?]
    | solve [auto with trace]
    | progress cbv zeta
    | match goal with
      | |- keeps_trace (if ?b then _ else _) => destruct b
      | |- keeps_trace (match ?x with _ => _ end) => destruct x
      end ].

(** ** The stages *)

Section StageFacts.

Context {W : Type} (env : Environment W).

Lemma accepted_is_long (text : option string) (date : pyval) (st : state W)
    t d st' :
  (if long_enough text then ret (text, date) else ret (None, PyNone)) st
    = (Ok (Some t, d), st') ->
  long_enough (Some t) = true.
Proof.
  destruct (long_enough text) eqn:E; unfold ret; intros [= ? ? ?]; subst.
  exact E.
Qed.

Lemma long_enough_length (t : string) :
  long_enough (Some t) = true -> t <> "" /\ 100 < String.length t.
Proof.
  unfold long_enough. intros H. apply andb_prop in H as [Hn Hl].
  split.
  - intros ->. discriminate Hn.
  - apply Nat.ltb_lt, Hl.
Qed.

(** The acceptance policy: a stage returns a text only when it is longer
    than a hundred characters. *)
Lemma stage_text_is_long (s : stage) (u : string) (st : state W) t d st' :
  run_stage env s u st = (Ok (Some t, d), st') ->
  long_enough (Some t) = true.
Proof.
  destruct s; simpl; intros H.
  - unfold extract_with_newspaper in H.
    apply bind_ok in H as [[] [st1 [_ H]]].
    apply try_except_found in H.
    apply bind_ok in H as [article [st2 [_ H]]].
    apply accepted_is_long in H. exact H.
  - unfold extract_with_trafilatura in H.
    apply bind_ok in H as [[] [st1 [_ H]]].
    apply try_except_found in H.
    apply bind_ok in H as [downloaded [st2 [_ H]]].
    destruct downloaded as [html|]; [|discriminate H].
    destruct (negb (Str.nonempty html)); [discriminate H|].
    apply bind_ok in H as [text [st3 [_ H]]].
    apply bind_ok in H as [metadata [st4 [_ H]]].
    apply accepted_is_long in H. exact H.
  - unfold extract_with_gemini in H.
    apply bind_ok in H as [[] [st1 [_ H]]].
    apply try_except_found in H.
    apply bind_ok in H as [response [st2 [_ H]]].
    apply bind_ok in H as [[] [st3 [_ H]]].
    apply bind_ok in H as [completion [st4 [_ H]]].
    unfold parse_gemini_response in H.
    apply bind_ok in H as [parsed [st5 [_ H]]].
    apply bind_ok in H as [tv [st6 [_ H]]].
    apply bind_ok in H as [text [st7 [_ H]]].
    apply bind_ok in H as [date [st8 [_ H]]].
    apply accepted_is_long in H. exact H.
Qed.

(** A stage function records its own invocation and nothing else. *)
Lemma stage_trace (s : stage) (u : string) (st : state W) r st' :
  run_stage env s u st = (r, st') ->
  trace st' = (trace st ++ [Invoked s u])%list.
Proof.
  destruct s; simpl; intros H.
  - apply emit_then in H; [exact H|]. keeps_trace_tac.
  - apply emit_then in H; [exact H|]. keeps_trace_tac.
  - apply emit_then in H; [exact H|]. unfold parse_gemini_response.
    keeps_trace_tac.
Qed.

Lemma try_except_raised {A} (body : M W A) handled (handler : exn -> M W A)
    (st : state W) e st' :
  (forall x, exists a, forall s, handler x s = (Ok a, s)) ->
  try_except body handled handler st = (Raise e, st') ->
  handled e = false.
Proof.
  intros Hh. unfold try_except.
  destruct (body st) as [[a|x] st1]; [discriminate|].
  destruct (handled x) eqn:E.
  - destruct (Hh x) as [a Ha]. rewrite Ha. discriminate.
  - intros [= <- _]. exact E.
Qed.

(** What leaves a stage function is an exception its [except] clause does
    not name; every other failure inside the stage is turned into the
    negative result. *)
Lemma stage_raises_unhandled (s : stage) (u : string) (st : state W) e st' :
  run_stage env s u st = (Raise e, st') ->
  catches env (handled_by s) e = false.
Proof.
  destruct s; simpl; unfold bind, emit; intros H;
    apply try_except_raised in H; auto;
    intros x; exists (None, PyNone); reflexivity.
Qed.

(** What leaves the date normalizer is an exception that is neither a
    [ValueError] nor a [TypeError]. *)
Lemma normalize_date_raises_unhandled (v : pyval) (st : state W) e st' :
  normalize_date env v st = (Raise e, st') ->
  catches env [Lib ValueError; Lib TypeError] e = false.
Proof.
  unfold normalize_date. destruct (negb (truthy v)); [discriminate|].
  intros H. apply try_except_raised in H; auto.
  intros x. exists None. reflexivity.
Qed.

(** The date normalizer leaves the state as it is. *)
Lemma normalize_date_state (v : pyval) (st : state W) r st' :
  normalize_date env v st = (r, st') -> st' = st.
Proof.
  unfold normalize_date, try_except, bind, call_reading, ret.
  destruct (negb (truthy v)); [intros [= _ <-]; reflexivity|].
  destruct (date_parser_parse env v (world st)) as [dt|e].
  - intros [= _ <-]. reflexivity.
  - destruct (catches _ _ e); intros [= _ <-]; reflexivity.
Qed.

End StageFacts.

(** ** The orchestrator *)

Section OrchestratorFacts.

Context {W : Type} (env : Environment W).

Lemma strip_nonempty (s : string) :
  Str.nonempty (Str.strip s) = true -> Str.nonempty s = true.
Proof. destruct s; [discriminate | reflexivity]. Qed.

Lemma found_long (t : string) :
  long_enough (Some t) = true -> found (Some t) = Some t.
Proof.
  unfold long_enough, found. intros H. apply andb_prop in H as [-> _].
  reflexivity.
Qed.

Lemma found_some (o : option string) (t : string) :
  found o = Some t -> o = Some t.
Proof.
  destruct o as [x|]; simpl; [|discriminate].
  destruct (Str.nonempty x); congruence.
Qed.

(** The normalizer returns whenever dateutil parses the value or rejects
    it with a [ValueError] or a [TypeError]. *)
Lemma normalize_date_returns (v : pyval) (st : state W) :
  (forall e, date_parser_parse env v (world st) = Raise e ->
             isinstance env e (Lib ValueError)
             \/ isinstance env e (Lib TypeError)) ->
  exists nd, normalize_date env v st = (Ok nd, st).
Proof.
  intros Hp. unfold normalize_date, try_except, bind, call_reading, ret.
  destruct (negb (truthy v)); [eauto|].
  destruct (date_parser_parse env v (world st)) as [dt|e]; [eauto|].
  assert (Hc : catches env [Lib ValueError; Lib TypeError] e = true).
  { unfold catches. cbn [existsb].
    destruct (Hp e eq_refl) as [H|H]; unfold isinstance in H; rewrite H;
      rewrite ?orb_true_r; reflexivity. }
  rewrite Hc. eauto.
Qed.

Lemma success_invariant (id_value u text : string) nd (k : stage) :
  long_enough (Some text) = true ->
  result_invariant (success id_value u text nd k).
Proof.
  intros H. apply long_enough_length in H as [Hne Hlen].
  split; simpl.
  - intros _. split; [|discriminate]. exists text. auto.
  - discriminate.
Qed.

(** The branch taken once a stage has returned a text. *)
Lemma success_branch (id_value u text : string) (date : pyval) (k : stage)
    (st : state W) :
  (forall e, date_parser_parse env date (world st) = Raise e ->
             isinstance env e (Lib ValueError)
             \/ isinstance env e (Lib TypeError)) ->
  exists nd,
    bind (normalize_date env date)
      (fun normalized_date =>
         ret (success id_value u text normalized_date k)) st
    = (Ok (success id_value u text nd k), st).
Proof.
  intros Hp. destruct (normalize_date_returns date st Hp) as [nd Hn].
  exists nd. rewrite (bind_step _ _ _ _ _ Hn). reflexivity.
Qed.

End OrchestratorFacts.

(** X24.  On a valid URL, when the stages run in the order newspaper,
    trafilatura, gemini and [k] is the first of them to return a text (the
    stages before it returned without one), [extract_from_url] returns a
    result of status success with that text, longer than a hundred
    characters, and with the name of [k] as its extraction method; the
    stages entered are those up to [k] and no later one.  The date parser
    is assumed to answer the date of stage [k] with a date or with a
    [ValueError] or a [TypeError]. *)
Theorem extract_from_url_first_success :
  forall (W : Type) (env : Environment W) (s id_value : string)
         (st : state W) (k : stage) (text : string) (date : pyval)
         (st' : state W),
    Str.nonempty (Str.strip s) = true ->
    first_success env pipeline (Str.strip s) st k text date st' ->
    (forall e, date_parser_parse env date (world st') = Raise e ->
               isinstance env e (Lib ValueError)
               \/ isinstance env e (Lib TypeError)) ->
    exists r,
      extract_from_url env (PyStr s) id_value st = (Ok r, st')
      /\ status r = "success"
      /\ extracted_text r = Some text
      /\ 100 < String.length text
      /\ extraction_method r = Some (stage_name k)
      /\ trace st'
         = (trace st
            ++ map (fun x => Invoked x (Str.strip s)) (stages_through k))%list.
Proof.
  intros W env s id_value st k text date st' Hu Hfs Hp.
  unfold extract_from_url. rewrite Hu, (strip_nonempty s Hu). cbn [negb orb].
  set (u := Str.strip s) in *.
  unfold pipeline in Hfs.
  inversion Hfs as [? ? ? ? ? ? ? H1 | ? ? ? ? d1 st1 ? ? ? ? H1 Hfs1]; subst.
  { (* newspaper *)
    pose proof (stage_text_is_long env _ _ _ _ _ _ H1) as Hlong.
    pose proof (stage_trace env _ _ _ _ _ H1) as Htr.
    simpl in H1. rewrite (bind_step _ _ _ _ _ H1). cbn [fst snd].
    rewrite (found_long text Hlong).
    destruct (success_branch env id_value u text date Newspaper st' Hp)
      as [nd Hn].
    rewrite Hn. eexists. split; [reflexivity|].
    apply long_enough_length in Hlong as [_ Hlen]. simpl. auto. }
  pose proof (stage_trace env _ _ _ _ _ H1) as Htr1.
  simpl in H1. rewrite (bind_step _ _ _ _ _ H1). cbn [fst snd found].
  inversion Hfs1 as [? ? ? ? ? ? ? H2 | ? ? ? ? d2 st2 ? ? ? ? H2 Hfs2]; subst.
  { (* trafilatura *)
    pose proof (stage_text_is_long env _ _ _ _ _ _ H2) as Hlong.
    pose proof (stage_trace env _ _ _ _ _ H2) as Htr2.
    simpl in H2. rewrite (bind_step _ _ _ _ _ H2). cbn [fst snd].
    rewrite (found_long text Hlong).
    destruct (success_branch env id_value u text date Trafilatura st' Hp)
      as [nd Hn].
    rewrite Hn. eexists. split; [reflexivity|].
    apply long_enough_length in Hlong as [_ Hlen]. simpl.
    rewrite Htr2, Htr1, <- app_assoc. auto. }
  pose proof (stage_trace env _ _ _ _ _ H2) as Htr2.
  simpl in H2. rewrite (bind_step _ _ _ _ _ H2). cbn [fst snd found].
  inversion Hfs2 as [? ? ? ? ? ? ? H3 | ? ? ? ? d3 st3 ? ? ? ? H3 Hfs3]; subst.
  { (* gemini *)
    pose proof (stage_text_is_long env _ _ _ _ _ _ H3) as Hlong.
    pose proof (stage_trace env _ _ _ _ _ H3) as Htr3.
    simpl in H3. rewrite (bind_step _ _ _ _ _ H3). cbn [fst snd].
    rewrite (found_long text Hlong).
    destruct (success_branch env id_value u text date Gemini st' Hp)
      as [nd Hn].
    rewrite Hn. eexists. split; [reflexivity|].
    apply long_enough_length in Hlong as [_ Hlen]. simpl.
    rewrite Htr3, Htr2, Htr1, <- !app_assoc. auto. }
  inversion Hfs3.
Qed.

Lemma extract_from_url_first_success_witness :
  exists r,
    extract_from_url Examples.second_stage_site
      (PyStr ("  " ++ Examples.page_url ++ " ")) "a1" Examples.start
    = (Ok r, mk_state tt [Invoked Newspaper Examples.page_url;
                          Invoked Trafilatura Examples.page_url])
    /\ status r = "success"
    /\ extracted_text r = Some Examples.article_body
    /\ 100 < String.length Examples.article_body
    /\ extraction_method r = Some "trafilatura"
    /\ [Invoked Newspaper Examples.page_url;
        Invoked Trafilatura Examples.page_url]
       = ([] ++ map (fun x => Invoked x Examples.page_url)
                  (stages_through Trafilatura))%list.
Proof.
  apply (extract_from_url_first_success unit Examples.second_stage_site
           ("  " ++ Examples.page_url ++ " ") "a1" Examples.start
           Trafilatura Examples.article_body PyNone
           (mk_state tt [Invoked Newspaper Examples.page_url;
                         Invoked Trafilatura Examples.page_url])).
  - reflexivity.
  - apply (fs_later _ Newspaper _ _ _ PyNone
             (mk_state tt [Invoked Newspaper Examples.page_url])).
    + vm_compute. reflexivity.
    + apply fs_here. vm_compute. reflexivity.
  - intros e H. right. injection H as <-. reflexivity.
Defined.

(** C2.  Every result [extract_from_url] returns satisfies the invariant
    of [ExtractionResult]: when its status is success its text is not
    empty, is longer than a hundred characters and its extraction method is
    set; when its status is error its text, publication date and
    extraction method are absent. *)
Theorem extract_from_url_result_invariant :
  forall (W : Type) (env : Environment W) (u : pyval) (id_value : string)
         (st : state W) (r : ExtractionResult) (st' : state W),
    extract_from_url env u id_value st = (Ok r, st') ->
    result_invariant r.
Proof.
  intros W env u id_value st r st' H. unfold extract_from_url in H.
  destruct u; try discriminate H.
  destruct (negb (Str.nonempty s) || negb (Str.nonempty (Str.strip s)));
    [discriminate H|].
  apply bind_ok in H as [[t1 d1] [st1 [H1 H]]]. cbn [fst snd] in H.
  destruct (found t1) as [text|] eqn:F1.
  { apply found_some in F1. subst t1.
    apply (stage_text_is_long env Newspaper) in H1.
    apply bind_ok in H as [nd [st2 [_ H]]]. injection H as <- _.
    apply success_invariant, H1. }
  clear H1. apply bind_ok in H as [[t2 d2] [st2 [H2 H]]]. cbn [fst snd] in H.
  destruct (found t2) as [text|] eqn:F2.
  { apply found_some in F2. subst t2.
    apply (stage_text_is_long env Trafilatura) in H2.
    apply bind_ok in H as [nd [st3 [_ H]]]. injection H as <- _.
    apply success_invariant, H2. }
  clear H2. apply bind_ok in H as [[t3 d3] [st3 [H3 H]]]. cbn [fst snd] in H.
  destruct (found t3) as [text|] eqn:F3.
  { apply found_some in F3. subst t3.
    apply (stage_text_is_long env Gemini) in H3.
    apply bind_ok in H as [nd [st4 [_ H]]]. injection H as <- _.
    apply success_invariant, H3. }
  discriminate H.
Qed.

Lemma extract_from_url_result_invariant_witness :
  result_invariant
    (success "a1" Examples.page_url Examples.article_body (Some "2024-01-15")
       Gemini).
Proof.
  apply (extract_from_url_result_invariant unit Examples.llm_site
           (PyStr Examples.page_url) "a1" Examples.start _
           (mk_state tt [Invoked Newspaper Examples.page_url;
                         Invoked Trafilatura Examples.page_url;
                         Invoked Gemini Examples.page_url])).
  vm_compute. reflexivity.
Defined.

(** Whenever the three stages return without a text, the orchestrator
    reaches [ExtractionResult.create_error], which models.py does not
    define: the call raises. *)
Lemma extract_from_url_all_stages_empty :
  forall (W : Type) (env : Environment W) (s id_value : string)
         (st st1 st2 st3 : state W) (d1 d2 d3 : pyval),
    Str.nonempty (Str.strip s) = true ->
    extract_with_newspaper env (Str.strip s) st = (Ok (None, d1), st1) ->
    extract_with_trafilatura env (Str.strip s) st1 = (Ok (None, d2), st2) ->
    extract_with_gemini env (Str.strip s) st2 = (Ok (None, d3), st3) ->
    extract_from_url env (PyStr s) id_value st = (Raise no_create_error, st3).
Proof.
  intros W env s id_value st st1 st2 st3 d1 d2 d3 Hu H1 H2 H3.
  unfold extract_from_url. rewrite Hu, (strip_nonempty s Hu). cbn [negb orb].
  rewrite (bind_step _ _ _ _ _ H1). cbn [fst found].
  rewrite (bind_step _ _ _ _ _ H2). cbn [fst found].
  rewrite (bind_step _ _ _ _ _ H3). cbn [fst found].
  reflexivity.
Qed.

(** C3.  On a page where no stage finds a text, [extract_from_url] does
    not return an error result: it raises [AttributeError], after the three
    stages have run. *)
Theorem extract_from_url_all_failed_raises :
  extract_from_url Examples.unreadable_site (PyStr Examples.page_url) "a1"
    Examples.start
  = (Raise no_create_error,
     mk_state tt [Invoked Newspaper Examples.page_url;
                  Invoked Trafilatura Examples.page_url;
                  Invoked Gemini Examples.page_url])
  /\ exn_type no_create_error = Lib AttributeError.
Proof. split; vm_compute; reflexivity. Qed.

(** Whenever the test of line 183 holds, the orchestrator raises and no
    stage is entered. *)
Lemma extract_from_url_invalid :
  forall (W : Type) (env : Environment W) (u : pyval) (id_value : string)
         (st : state W),
    invalid_url u = true ->
    extract_from_url env u id_value st = (Raise no_create_error, st).
Proof.
  intros W env u id_value st H. destruct u; try reflexivity.
  unfold invalid_url in H. cbn [truthy is_str negb orb] in H.
  unfold extract_from_url.
  destruct (Str.nonempty s); cbn [negb orb] in *; [|reflexivity].
  rewrite H. reflexivity.
Qed.

(** C4.  On [None], on the empty string, on a string of whitespace, on a
    number and on a NaN, [extract_from_url] enters no stage (the state is
    unchanged) and does not return an error result: it raises
    [AttributeError]. *)
Theorem extract_from_url_invalid_raises :
  forall (W : Type) (env : Environment W) (id_value : string) (st : state W),
    extract_from_url env PyNone id_value st = (Raise no_create_error, st)
    /\ extract_from_url env (PyStr "") id_value st
       = (Raise no_create_error, st)
    /\ extract_from_url env (PyStr ("   " ++ Str.nl)) id_value st
       = (Raise no_create_error, st)
    /\ extract_from_url env (PyInt 42) id_value st
       = (Raise no_create_error, st)
    /\ extract_from_url env (PyFloat FNaN) id_value st
       = (Raise no_create_error, st).
Proof.
  intros W env id_value st.
  repeat split; apply extract_from_url_invalid; reflexivity.
Qed.

(** C5.  When the model answers [{"text": null, "date": null}], the
    [AttributeError] of [None.strip()] is not among the exceptions
    [extract_with_gemini] handles: it leaves the stage function and the
    orchestrator. *)
Theorem extract_with_gemini_null_text_raises :
  extract_with_gemini Examples.null_text_site Examples.page_url Examples.start
  = (Raise (mk_exn (Lib AttributeError)
              "'NoneType' object has no attribute 'strip'"),
     mk_state tt [Invoked Gemini Examples.page_url])
  /\ extract_from_url Examples.null_text_site (PyStr Examples.page_url) "a1"
       Examples.start
     = (Raise (mk_exn (Lib AttributeError)
                 "'NoneType' object has no attribute 'strip'"),
        mk_state tt [Invoked Newspaper Examples.page_url;
                     Invoked Trafilatura Examples.page_url;
                     Invoked Gemini Examples.page_url]).
Proof. split; vm_compute; reflexivity. Qed.

(** C6.  A JSON payload between code fences (an opening marker, tagged
    json or not, or none; a closing marker or none; whitespace around the
    markers) is parsed exactly as the payload alone: the same result, text
    and date or exception, in the same state. *)
Theorem fenced_response_parsed_as_bare :
  forall (W : Type) (env : Environment W) (ws1 : string) (o : opening)
         (ws2 payload ws3 : string) (closed : bool) (ws4 : string)
         (st : state W),
    json_payload payload = true ->
    Str.all_space ws1 = true -> Str.all_space ws2 = true ->
    Str.all_space ws3 = true -> Str.all_space ws4 = true ->
    parse_gemini_response env (fenced ws1 o ws2 payload ws3 closed ws4) st
    = parse_gemini_response env payload st.
Proof.
  intros W env ws1 o ws2 payload ws3 closed ws4 st Hj H1 H2 H3 H4.
  unfold parse_gemini_response.
  rewrite (FenceFacts.strip_code_fences_fenced ws1 o ws2 payload ws3 closed
             ws4 Hj H1 H2 H3 H4).
  rewrite (FenceFacts.strip_code_fences_bare payload Hj).
  reflexivity.
Qed.

Lemma fenced_response_parsed_as_bare_witness :
  parse_gemini_response Examples.llm_site
    (fenced " " OpeningFenceJson Str.nl Examples.article_payload Str.nl true
       Str.nl) Examples.start
  = parse_gemini_response Examples.llm_site Examples.article_payload
      Examples.start.
Proof.
  apply (fenced_response_parsed_as_bare unit Examples.llm_site " "
           OpeningFenceJson Str.nl Examples.article_payload Str.nl true Str.nl
           Examples.start); reflexivity.
Defined.

(** ** The date normalizer *)

(** [normalize_date] returns [None], and does not raise, on [None], on
    every value that is not a string, and on every string that dateutil
    rejects with a [ValueError] (its [ParserError]); dateutil is assumed to
    raise [TypeError] on a value that is not a string. *)
Theorem normalize_date_absent :
  forall (W : Type) (env : Environment W) (v : pyval) (st : state W),
    rejects_non_strings env ->
    (v = PyNone
     \/ is_str v = false
     \/ exists e, date_parser_parse env v (world st) = Raise e
                  /\ isinstance env e (Lib ValueError)) ->
    normalize_date env v st = (Ok None, st).
Proof.
  intros W env v st Hty Hv.
  unfold normalize_date, try_except, bind, call_reading, ret.
  destruct (negb (truthy v)) eqn:Ht; [reflexivity|].
  assert (Hraise : exists e, date_parser_parse env v (world st) = Raise e
                             /\ catches env [Lib ValueError; Lib TypeError] e
                                = true).
  { destruct Hv as [-> | [Hs | [e [He Hi]]]].
    - discriminate Ht.
    - destruct (Hty v (world st) Hs) as [e [He Hc]]. exists e.
      split; [exact He|]. unfold catches. cbn [existsb]. rewrite Hc.
      destruct env; reflexivity.
    - exists e. split; [exact He|]. unfold catches. cbn [existsb].
      unfold isinstance in Hi. rewrite Hi. reflexivity. }
  destruct Hraise as [e [-> ->]]. reflexivity.
Qed.

Lemma normalize_date_absent_witness :
  normalize_date Examples.llm_site (PyStr "not-a-date") Examples.start
  = (Ok None, Examples.start)
  /\ normalize_date Examples.llm_site (PyInt 20240115) Examples.start
     = (Ok None, Examples.start).
Proof.
  assert (H : rejects_non_strings Examples.llm_site).
  { intros v w Hv. destruct v; try discriminate Hv; eexists;
      split; reflexivity. }
  split.
  - apply (normalize_date_absent unit Examples.llm_site (PyStr "not-a-date")
             Examples.start H).
    right. right. eexists. split; reflexivity.
  - apply (normalize_date_absent unit Examples.llm_site (PyInt 20240115)
             Examples.start H).
    right. left. reflexivity.
Defined.

Lemma digit_of_value (c : ascii) :
  is_digit c = true -> digit (digit_value c) = c /\ digit_value c < 10.
Proof.
  destruct c as [[] [] [] [] [] [] [] []]; vm_compute; intros H;
    try discriminate H; split; try reflexivity; repeat constructor.
Qed.

Lemma low_digits_two (a b : nat) :
  a < 10 -> b < 10 ->
  zero_padded 2 (10 * a + b)
  = String (digit a) (String (digit b) EmptyString).
Proof.
  intros Ha Hb. unfold zero_padded.
  assert (Hlt : (10 * a + b <? 10 ^ 2)%nat = true)
    by (apply Nat.ltb_lt; simpl; lia).
  rewrite Hlt. cbn [low_digits append].
  assert (E1 : (10 * a + b) mod 10 = b)
    by (symmetry; apply (Nat.mod_unique _ 10 a b); lia).
  assert (E2 : (10 * a + b) / 10 = a)
    by (symmetry; apply (Nat.div_unique _ 10 a b); lia).
  rewrite E1, E2, (Nat.mod_small a 10 Ha). reflexivity.
Qed.

Lemma low_digits_four (a b c d : nat) :
  a < 10 -> b < 10 -> c < 10 -> d < 10 ->
  zero_padded 4 (1000 * a + 100 * b + 10 * c + d)
  = String (digit a) (String (digit b) (String (digit c)
      (String (digit d) EmptyString))).
Proof.
  intros Ha Hb Hc Hd. unfold zero_padded.
  assert (Hlt : (1000 * a + 100 * b + 10 * c + d <? 10 ^ 4)%nat = true)
    by (apply Nat.ltb_lt; change (10 ^ 4) with (10 * 1000); lia).
  rewrite Hlt. cbn [low_digits append].
  set (n := 1000 * a + 100 * b + 10 * c + d).
  assert (E1 : n mod 10 = d)
    by (symmetry; apply (Nat.mod_unique _ 10 (100 * a + 10 * b + c) d);
        subst n; lia).
  assert (E2 : n / 10 = 100 * a + 10 * b + c)
    by (symmetry; apply (Nat.div_unique _ 10 (100 * a + 10 * b + c) d);
        subst n; lia).
  rewrite E1, E2. clear E1 E2 Hlt n.
  assert (E3 : (100 * a + 10 * b + c) mod 10 = c)
    by (symmetry; apply (Nat.mod_unique _ 10 (10 * a + b) c); lia).
  assert (E4 : (100 * a + 10 * b + c) / 10 = 10 * a + b)
    by (symmetry; apply (Nat.div_unique _ 10 (10 * a + b) c); lia).
  rewrite E3, E4.
  assert (E5 : (10 * a + b) mod 10 = b)
    by (symmetry; apply (Nat.mod_unique _ 10 a b); lia).
  assert (E6 : (10 * a + b) / 10 = a)
    by (symmetry; apply (Nat.div_unique _ 10 a b); lia).
  rewrite E5, E6, (Nat.mod_small a 10 Ha). reflexivity.
Qed.

(** Formatting the date a canonical string names gives the string back. *)
Lemma date_isoformat_read (s : string) (d : date) :
  read_canonical_date s = Some d -> date_isoformat d = s.
Proof.
  unfold read_canonical_date.
  destruct s as [|y1 [|y2 [|y3 [|y4 [|s1 [|m1 [|m2 [|s2 [|d1 [|d2 [|]]]]]]]]]]];
    try discriminate.
  destruct (forallb is_digit [y1; y2; y3; y4; m1; m2; d1; d2]
            && Ascii.eqb s1 "-" && Ascii.eqb s2 "-") eqn:E; [|discriminate].
  apply andb_prop in E as [E E2]. apply andb_prop in E as [E E1].
  apply Ascii.eqb_eq in E1, E2. subst s1 s2.
  cbn [forallb] in E.
  repeat match type of E with
         | (_ && _)%bool = true =>
             let H := fresh "Hd" in apply andb_prop in E as [H E]
         end.
  match goal with |- (if ?b then _ else _) = _ -> _ => destruct b end;
    [|discriminate].
  intros H.
  replace d with
    (mk_date (1000 * digit_value y1 + 100 * digit_value y2
              + 10 * digit_value y3 + digit_value y4)
       (10 * digit_value m1 + digit_value m2)
       (10 * digit_value d1 + digit_value d2)) by congruence.
  clear H. unfold date_isoformat. cbn [year month day].
  repeat match goal with
         | H : is_digit ?c = true |- _ =>
             let Hv := fresh "Hv" in let Hl := fresh "Hl" in
             destruct (digit_of_value c H) as [Hv Hl]; clear H
         end.
  rewrite low_digits_four, !low_digits_two by assumption.
  cbn [append]. congruence.
Qed.

(** C8.  [normalize_date] returns a canonical date string unchanged;
    dateutil is assumed to read a canonical date as the date it names. *)
Theorem normalize_date_canonical :
  forall (W : Type) (env : Environment W) (s : string) (d : date)
         (st : state W),
    reads_canonical_dates env ->
    read_canonical_date s = Some d ->
    normalize_date env (PyStr s) st = (Ok (Some s), st).
Proof.
  intros W env s d st Hread Hs.
  destruct (Hread s d (world st) Hs) as [dt [Hp Hd]].
  assert (Hne : truthy (PyStr s) = true)
    by (destruct s; [discriminate Hs | reflexivity]).
  unfold normalize_date. rewrite Hne. cbn [negb].
  unfold try_except, bind, call_reading, ret. rewrite Hp, Hd.
  rewrite (date_isoformat_read s d Hs). reflexivity.
Qed.

Lemma normalize_date_canonical_witness :
  normalize_date Examples.llm_site (PyStr "2024-02-29") Examples.start
  = (Ok (Some "2024-02-29"), Examples.start).
Proof.
  apply (normalize_date_canonical unit Examples.llm_site "2024-02-29"
           (mk_date 2024 2 29) Examples.start).
  - intros s d w H. exists (Examples.midnight d). simpl. rewrite H.
    split; reflexivity.
  - reflexivity.
Defined.

(** ** The batch processor *)

Section BatchFacts.

Context {W : Type} (env : Environment W).

Lemma written_tables_app (a b : list event) :
  written_tables (a ++ b) = (written_tables a ++ written_tables b)%list.
Proof. unfold written_tables. apply flat_map_app. Qed.

Lemma keeps_trace_writes_nothing {A} (m : M W A) :
  keeps_trace m -> writes_nothing m.
Proof. intros H st r st' E. rewrite (H _ _ _ E). reflexivity. Qed.

Lemma writes_nothing_bind {A B} (m : M W A) (k : A -> M W B) :
  writes_nothing m -> (forall a, writes_nothing (k a)) ->
  writes_nothing (bind m k).
Proof.
  intros Hm Hk st r st'. unfold bind.
  destruct (m st) as [[a|e] st1] eqn:E; intros H.
  - rewrite (Hk a _ _ _ H). apply (Hm _ _ _ E).
  - injection H as _ <-. apply (Hm _ _ _ E).
Qed.

Lemma stage_writes_nothing (s : stage) (u : string) :
  writes_nothing (run_stage env s u).
Proof.
  intros st r st' H. rewrite (stage_trace env _ _ _ _ _ H).
  rewrite written_tables_app. simpl. apply app_nil_r.
Qed.

Lemma normalize_date_writes_nothing (v : pyval) :
  writes_nothing (normalize_date env v).
Proof.
  intros st r st' H. rewrite (normalize_date_state env _ _ _ _ H).
  reflexivity.
Qed.

Lemma extract_from_url_writes_nothing (u : pyval) (id_value : string) :
  writes_nothing (extract_from_url env u id_value).
Proof.
  assert (Hraise : forall A e, writes_nothing (raise (W:=W) (A:=A) e))
    by (intros A e; apply keeps_trace_writes_nothing, keeps_trace_raise).
  assert (Hret : forall A (a : A), writes_nothing (ret (W:=W) a))
    by (intros A a; apply keeps_trace_writes_nothing, keeps_trace_ret).
  assert (Hbranch : forall d (f : option string -> ExtractionResult),
             writes_nothing
               (bind (normalize_date env d) (fun nd => ret (f nd)))).
  { intros d f. apply writes_nothing_bind;
      [apply normalize_date_writes_nothing | intros nd; apply Hret]. }
  unfold extract_from_url, ExtractionResult_create_error.
  destruct u; try apply Hraise.
  destruct (_ || _)%bool; [apply Hraise|].
  apply writes_nothing_bind; [apply (stage_writes_nothing Newspaper)|].
  intros r1. destruct (found (fst r1)); [apply Hbranch|].
  apply writes_nothing_bind; [apply (stage_writes_nothing Trafilatura)|].
  intros r2. destruct (found (fst r2)); [apply Hbranch|].
  apply writes_nothing_bind; [apply (stage_writes_nothing Gemini)|].
  intros r3. destruct (found (fst r3)); [apply Hbranch | apply Hraise].
Qed.

(** A result the orchestrator returns carries the identifier it was given
    and the stripped URL. *)
Lemma extract_from_url_attribution (u : pyval) (idv : string)
    (st : state W) r st' :
  extract_from_url env u idv st = (Ok r, st') ->
  exists s, u = PyStr s /\ id_value r = idv /\ url r = Str.strip s.
Proof.
  intros H. unfold extract_from_url in H.
  destruct u; try discriminate H. exists s. split; [reflexivity|].
  destruct (_ || _)%bool; [discriminate H|].
  apply bind_ok in H as [r1 [st1 [_ H]]].
  destruct (found (fst r1)).
  { apply bind_ok in H as [nd [st2 [_ H]]]. injection H as <- _. auto. }
  apply bind_ok in H as [r2 [st2 [_ H]]].
  destruct (found (fst r2)).
  { apply bind_ok in H as [nd [st3 [_ H]]]. injection H as <- _. auto. }
  apply bind_ok in H as [r3 [st3 [_ H]]].
  destruct (found (fst r3)); [|discriminate H].
  apply bind_ok in H as [nd [st4 [_ H]]]. injection H as <- _. auto.
Qed.

Lemma row_getitem_state (df : DataFrame) row col (st : state W) r st' :
  row_getitem df row col st = (r, st') -> st' = st.
Proof.
  unfold row_getitem, ret, raise.
  destruct (index_of col (columns df)) as [i|];
    [destruct (nth_error row i)|]; intros [= _ <-]; reflexivity.
Qed.

End BatchFacts.

Section LoopFacts.

Context {W : Type} (env : Environment W).

Lemma row_getitem_ok (df : DataFrame) row col (st : state W) v st' :
  row_getitem df row col st = (Ok v, st') ->
  cell df row col = Some v /\ st' = st.
Proof.
  unfold row_getitem, cell, ret, raise.
  destruct (index_of col (columns df)) as [i|];
    [destruct (nth_error row i)|]; intros [= ? ?]; subst; auto.
Qed.

Lemma pairs_length (rws : list (list pyval)) (url_cols : list string) :
  length (pairs rws url_cols) = length rws * length url_cols.
Proof.
  unfold pairs. induction rws as [|row rws IH]; simpl; [reflexivity|].
  rewrite length_app, length_map, IH. reflexivity.
Qed.

Lemma process_url_columns_ok (df : DataFrame) (row : list pyval)
    (idv : string) (url_cols : list string) :
  forall results (st : state W) out st',
    process_url_columns env df row idv url_cols results st = (Ok out, st') ->
    exists new,
      out = (results ++ new)%list
      /\ Forall2 (fun col r =>
                    exists s, cell df row col = Some (PyStr s)
                              /\ id_value r = idv /\ url r = Str.strip s)
           url_cols new
      /\ written_tables (trace st') = written_tables (trace st).
Proof.
  induction url_cols as [|col rest IH]; intros results st out st' H.
  - injection H as <- <-. exists []. rewrite app_nil_r. auto.
  - cbn [process_url_columns] in H.
    apply bind_ok in H as [u [st1 [Hu H]]].
    apply row_getitem_ok in Hu as [Hcell ->].
    apply bind_ok in H as [r [st2 [Hr H]]].
    pose proof (extract_from_url_writes_nothing env u idv _ _ _ Hr) as Hw.
    apply extract_from_url_attribution in Hr as [s [-> [Hid Hurl]]].
    apply IH in H as [new [-> [Hall Hw']]].
    exists (r :: new). rewrite <- app_assoc. split; [reflexivity|].
    split; [|congruence].
    constructor; [|exact Hall]. exists s. auto.
Qed.

Lemma process_rows_ok (df : DataFrame) (config : Config)
    (rws : list (list pyval)) :
  forall results (st : state W) out st',
    process_rows env df config rws results st = (Ok out, st') ->
    exists new,
      out = (results ++ new)%list
      /\ Forall2 (comes_from env df config) (pairs rws (url_columns config))
           new
      /\ written_tables (trace st') = written_tables (trace st).
Proof.
  induction rws as [|row rest IH]; intros results st out st' H.
  - injection H as <- <-. exists []. rewrite app_nil_r.
    repeat split; constructor.
  - cbn [process_rows] in H.
    apply bind_ok in H as [v [st1 [Hv H]]].
    apply row_getitem_ok in Hv as [Hcell ->].
    apply bind_ok in H as [mid [st2 [Hcols H]]].
    apply process_url_columns_ok in Hcols as [new1 [-> [Hall1 Hw1]]].
    apply IH in H as [new2 [-> [Hall2 Hw2]]].
    exists (new1 ++ new2)%list. rewrite <- app_assoc.
    split; [reflexivity|]. split; [|congruence].
    unfold pairs. cbn [flat_map]. apply Forall2_app; [|exact Hall2].
    clear - Hall1 Hcell.
    induction Hall1 as [|col r cols rs [s [Hc [Hid Hurl]]] _ IHall];
      cbn [map]; constructor; [|exact IHall].
    exists v, s. cbn [fst snd]. auto.
Qed.

End LoopFacts.

(** When [process_csv] returns, it has written one table, of one row per
    pair of an input row and a URL column, in the order of the pairs. *)
Lemma process_csv_returned :
  forall (W : Type) (env : Environment W) (input_csv output_csv : string)
         (config : Config) (st st' : state W),
    process_csv env input_csv output_csv config st = (Ok tt, st') ->
    exists df w1 results,
      pd_read_csv env input_csv (world st) = (Ok df, w1)
      /\ Forall2 (comes_from env df config)
           (pairs (rows df) (url_columns config)) results
      /\ length results = length (rows df) * length (url_columns config)
      /\ written_tables (trace st')
         = (written_tables (trace st)
            ++ [(output_csv, map output_row results)])%list.
Proof.
  intros W env input_csv output_csv config st st' H.
  unfold process_csv in H.
  apply bind_ok in H as [df [st1 [Hread H]]].
  unfold call_world in Hread.
  destruct (pd_read_csv env input_csv (world st)) as [rd w1] eqn:Erd.
  injection Hread as -> <-.
  destruct (negb (has_column df (id_column config))); [discriminate H|].
  destruct (filter _ (url_columns config)); [|discriminate H].
  apply bind_ok in H as [results [st2 [Hrows H]]].
  apply process_rows_ok in Hrows as [new [-> [Hall Hw]]]. cbn [app] in *.
  exists df, w1, new. split; [reflexivity|]. split; [exact Hall|].
  split.
  - rewrite <- (Forall2_length Hall). apply pairs_length.
  - unfold bind, emit in H. cbn [world trace] in H.
    apply keeps_trace_call_world in H. cbn [trace] in H.
    rewrite H, written_tables_app, Hw. reflexivity.
Qed.

Example process_csv_two_by_two :
  exists table st',
    process_csv Examples.readable_site "in.csv" "out.csv"
      Examples.id_url_mirror Examples.start = (Ok tt, st')
    /\ written_tables (trace st') = [("out.csv", table)]
    /\ map (fun row => (dict_lookup row "id", dict_lookup row "url")) table
       = [(Some (PyStr "a1"), Some (PyStr Examples.page_url));
          (Some (PyStr "a1"), Some (PyStr "https://mirror.example.org/1"));
          (Some (PyStr "a2"), Some (PyStr "https://example.org/news/2"));
          (Some (PyStr "a2"), Some (PyStr "https://mirror.example.org/2"))].
Proof. eexists. eexists. repeat split; vm_compute; reflexivity. Qed.

(** C9.  On a table of one row whose URL cell is empty, [process_csv] does
    not write one output row for the pair: the [AttributeError] of the
    orchestrator leaves the loop and no table is written. *)
Theorem process_csv_error_row_raises :
  process_csv Examples.empty_cell_site "in.csv" "out.csv" Examples.id_and_url
    Examples.start
  = (Raise no_create_error, Examples.start)
  /\ written_tables (trace Examples.start) = []
  /\ length (rows Examples.one_empty_cell)
     * length (url_columns Examples.id_and_url) = 1.
Proof. repeat split; vm_compute; reflexivity. Qed.

(** C10.  When the identifier column or one of the URL columns is missing
    from the table read, [process_csv] raises [ValueError]; the trace is
    that of the start: no stage was entered and no table written. *)
Theorem process_csv_missing_column :
  forall (W : Type) (env : Environment W) (input_csv output_csv : string)
         (config : Config) (st : state W) (df : DataFrame) (w1 : W),
    pd_read_csv env input_csv (world st) = (Ok df, w1) ->
    (has_column df (id_column config) = false
     \/ exists col, In col (url_columns config)
                    /\ has_column df col = false) ->
    exists e,
      process_csv env input_csv output_csv config st
      = (Raise e, mk_state w1 (trace st))
      /\ exn_type e = Lib ValueError.
Proof.
  intros W env input_csv output_csv config st df w1 Hread Hmiss.
  unfold process_csv, bind, call_world. rewrite Hread.
  destruct (has_column df (id_column config)) eqn:Hid; cbn [negb].
  - destruct Hmiss as [Hmiss | [col [Hin Hcol]]]; [discriminate Hmiss|].
    assert (Hf : In col (filter (fun c => negb (has_column df c))
                           (url_columns config)))
      by (apply filter_In; rewrite Hcol; auto).
    destruct (filter _ (url_columns config)) as [|c cs]; [destruct Hf|].
    eexists. split; reflexivity.
  - eexists. split; reflexivity.
Qed.

Lemma process_csv_missing_column_witness :
  exists e,
    process_csv Examples.empty_cell_site "in.csv" "out.csv" Examples.wrong_id
      Examples.start
    = (Raise e, mk_state tt [])
    /\ exn_type e = Lib ValueError.
Proof.
  apply (process_csv_missing_column unit Examples.empty_cell_site "in.csv"
           "out.csv" Examples.wrong_id Examples.start Examples.one_empty_cell
           tt).
  - reflexivity.
  - left. reflexivity.
Defined.

(** * Further properties *)

(** ** The stages *)

Section StageMoreFacts.

Context {W : Type} (env : Environment W).

Lemma try_except_returned {A} (body : M W A) handled (x : A) (st : state W)
    a st' :
  try_except body handled (fun _ => ret x) st = (Ok a, st') ->
  body st = (Ok a, st') \/ a = x.
Proof.
  unfold try_except, ret. destruct (body st) as [[b|e] st1]; intros H.
  - left. exact H.
  - destruct (handled e); [|discriminate H]. injection H as <- _. auto.
Qed.

Lemma rejected_has_no_date (text : option string) (date : pyval)
    (st : state W) d st' :
  (if long_enough text then ret (text, date) else ret (None, PyNone)) st
    = (Ok (None, d), st') ->
  d = PyNone.
Proof.
  destruct (long_enough text) eqn:E; unfold ret; intros H; inversion H; subst.
  - discriminate E.
  - reflexivity.
Qed.

Lemma stage_negative_date (s : stage) (u : string) (st : state W) d st' :
  run_stage env s u st = (Ok (None, d), st') -> d = PyNone.
Proof.
  destruct s; simpl; intros H.
  - unfold extract_with_newspaper in H.
    apply bind_ok in H as [[] [st1 [_ H]]].
    apply try_except_returned in H as [H | [= ->]]; [|reflexivity].
    apply bind_ok in H as [article [st2 [_ H]]].
    apply rejected_has_no_date in H. exact H.
  - unfold extract_with_trafilatura in H.
    apply bind_ok in H as [[] [st1 [_ H]]].
    apply try_except_returned in H as [H | [= ->]]; [|reflexivity].
    apply bind_ok in H as [downloaded [st2 [_ H]]].
    destruct downloaded as [html|]; [|injection H as <- _; reflexivity].
    destruct (negb (Str.nonempty html)); [injection H as <- _; reflexivity|].
    apply bind_ok in H as [text [st3 [_ H]]].
    apply bind_ok in H as [metadata [st4 [_ H]]].
    apply rejected_has_no_date in H. exact H.
  - unfold extract_with_gemini in H.
    apply bind_ok in H as [[] [st1 [_ H]]].
    apply try_except_returned in H as [H | [= ->]]; [|reflexivity].
    apply bind_ok in H as [response [st2 [_ H]]].
    apply bind_ok in H as [[] [st3 [_ H]]].
    apply bind_ok in H as [completion [st4 [_ H]]].
    unfold parse_gemini_response in H.
    apply bind_ok in H as [parsed [st5 [_ H]]].
    apply bind_ok in H as [tv [st6 [_ H]]].
    apply bind_ok in H as [text [st7 [_ H]]].
    apply bind_ok in H as [date [st8 [_ H]]].
    apply rejected_has_no_date in H. exact H.
Qed.

End StageMoreFacts.

(** X1.  The acceptance policy of the three stage functions: a stage
    returns a text only when the text is not empty and longer than a
    hundred characters. *)
Theorem stage_acceptance_policy :
  forall (W : Type) (env : Environment W) (s : stage) (u : string)
         (st : state W) (t : string) (d : pyval) (st' : state W),
    run_stage env s u st = (Ok (Some t, d), st') ->
    t <> "" /\ 100 < String.length t.
Proof.
  intros W env s u st t d st' H.
  apply long_enough_length, (stage_text_is_long env s u st t d st' H).
Qed.

Lemma stage_acceptance_policy_witness :
  Examples.article_body <> "" /\ 100 < String.length Examples.article_body.
Proof.
  apply (stage_acceptance_policy unit Examples.second_stage_site Trafilatura
           Examples.page_url Examples.start Examples.article_body PyNone
           (mk_state tt [Invoked Trafilatura Examples.page_url])).
  vm_compute. reflexivity.
Defined.

(** X2.  A stage function that returns without a text returns without a
    date as well: its negative result is the pair of two [None]. *)
Theorem stage_negative_result :
  forall (W : Type) (env : Environment W) (s : stage) (u : string)
         (st : state W) (d : pyval) (st' : state W),
    run_stage env s u st = (Ok (None, d), st') -> d = PyNone.
Proof. intros W env. exact (stage_negative_date env). Qed.

Lemma stage_negative_result_witness : PyNone = PyNone.
Proof.
  apply (stage_negative_result unit Examples.second_stage_site Newspaper
           Examples.page_url Examples.start PyNone
           (mk_state tt [Invoked Newspaper Examples.page_url])).
  vm_compute. reflexivity.
Defined.



(** X4.  No transport error of requests ([RequestException] and its
    subclasses, such as [HTTPError]) and no [JSONDecodeError] leaves any of
    the three stage functions. *)
Theorem stage_contains_transport_and_json_errors :
  forall (W : Type) (env : Environment W) (s : stage) (u : string)
         (st : state W) (e : exn) (st' : state W) (c : lib_exn),
    run_stage env s u st = (Raise e, st') ->
    exn_type e = Lib c ->
    lib_issubclass c RequestException = false
    /\ lib_issubclass c JSONDecodeError = false.
Proof.
  intros W env s u st e st' c H Hc.
  apply (stage_raises_unhandled env) in H. unfold catches in H.
  rewrite Hc in H.
  destruct c; split; try reflexivity; exfalso; destruct s; cbn in H;
    discriminate H.
Qed.

Lemma stage_contains_transport_and_json_errors_witness :
  lib_issubclass AttributeError RequestException = false
  /\ lib_issubclass AttributeError JSONDecodeError = false.
Proof.
  apply (stage_contains_transport_and_json_errors unit Examples.null_text_site
           Gemini Examples.page_url Examples.start
           (mk_exn (Lib AttributeError)
              "'NoneType' object has no attribute 'strip'")
           (mk_state tt [Invoked Gemini Examples.page_url]) AttributeError).
  - vm_compute. reflexivity.
  - reflexivity.
Defined.

Module StrMoreFacts.
Import Str StrFacts.

Lemma last_char_nonempty (s : string) :
  s <> "" -> exists c, last_char s = Some c.
Proof.
  induction s as [|x s IH]; [congruence|]. intros _.
  destruct s as [|y s]; [exists x; reflexivity|].
  apply IH. discriminate.
Qed.

(** Stripping twice is stripping once. *)
Lemma strip_idempotent (s : string) : strip (strip s) = strip s.
Proof.
  destruct (strip s) as [|a t] eqn:E; [reflexivity|].
  assert (Ha : isspace a = false)
    by (apply (first_char_strip s); rewrite E; reflexivity).
  destruct (last_char_nonempty (String a t)) as [b Hb]; [discriminate|].
  assert (Hsb : isspace b = false)
    by (apply (last_char_strip s); rewrite E; exact Hb).
  unfold strip.
  rewrite (lstrip_solid (String a t) a eq_refl Ha).
  apply (rstrip_solid (String a t) b Hb Hsb).
Qed.

End StrMoreFacts.

(** X5.  The newspaper stage and the LLM stage return their text stripped:
    it has no whitespace at either end. *)
Theorem stage_text_is_stripped :
  forall (W : Type) (env : Environment W) (s : stage) (u : string)
         (st : state W) (t : string) (d : pyval) (st' : state W),
    run_stage env s u st = (Ok (Some t, d), st') ->
    s <> Trafilatura ->
    Str.strip t = t.
Proof.
  intros W env s u st t d st' H Hs. destruct s; simpl in H.
  - unfold extract_with_newspaper in H.
    apply bind_ok in H as [[] [st1 [_ H]]].
    apply try_except_found in H.
    apply bind_ok in H as [article [st2 [_ H]]]. cbv zeta in H.
    destruct (Str.nonempty (article_text article)).
    + destruct (long_enough _); unfold ret in H; inversion H.
      apply StrMoreFacts.strip_idempotent.
    + cbn [long_enough] in H. discriminate H.
  - congruence.
  - unfold extract_with_gemini in H.
    apply bind_ok in H as [[] [st1 [_ H]]].
    apply try_except_found in H.
    apply bind_ok in H as [response [st2 [_ H]]].
    apply bind_ok in H as [[] [st3 [_ H]]].
    apply bind_ok in H as [completion [st4 [_ H]]].
    unfold parse_gemini_response in H.
    apply bind_ok in H as [parsed [st5 [_ H]]].
    apply bind_ok in H as [tv [st6 [_ H]]].
    apply bind_ok in H as [text [st7 [Htext H]]].
    apply bind_ok in H as [date [st8 [_ H]]].
    destruct tv; try discriminate Htext. injection Htext as <- _.
    destruct (long_enough _); unfold ret in H; inversion H.
    apply StrMoreFacts.strip_idempotent.
Qed.

Lemma stage_text_is_stripped_witness :
  Str.strip Examples.article_body = Examples.article_body.
Proof.
  apply (stage_text_is_stripped unit Examples.llm_site Gemini
           Examples.page_url Examples.start Examples.article_body
           (PyStr "2024-01-15")
           (mk_state tt [Invoked Gemini Examples.page_url])).
  - vm_compute. reflexivity.
  - discriminate.
Defined.

(** X6.  When the page answers with a status from 400 to 599, the LLM
    stage returns the negative result; the world is as the fetch left it:
    the model is not queried. *)
Theorem extract_with_gemini_http_error :
  forall (W : Type) (env : Environment W) (u : string) (st : state W)
         (response : Response) (w1 : W),
    requests_get env u (world st) = (Ok response, w1) ->
    (400 <= status_code response < 600)%Z ->
    extract_with_gemini env u st
    = (Ok (None, PyNone), mk_state w1 (trace st ++ [Invoked Gemini u])).
Proof.
  intros W env u st response w1 Hget [Hlo Hhi].
  unfold extract_with_gemini, bind, emit, try_except, call_world.
  cbn [world trace]. rewrite Hget. unfold raise_for_status.
  apply Z.leb_le in Hlo. apply Z.ltb_lt in Hhi. rewrite Hlo, Hhi.
  reflexivity.
Qed.

Lemma extract_with_gemini_http_error_witness :
  extract_with_gemini Examples.not_found_site Examples.page_url Examples.start
  = (Ok (None, PyNone),
     mk_state tt ([] ++ [Invoked Gemini Examples.page_url])).
Proof.
  apply (extract_with_gemini_http_error unit Examples.not_found_site
           Examples.page_url Examples.start
           (mk_Response 404 "<html>Not Found</html>") tt).
  - reflexivity.
  - split; [discriminate | reflexivity].
Defined.

(** X7.  The LLM stage reads the first fifty thousand characters of the
    page and nothing after them: two pages of the same status that agree
    on these characters give the same outcome. *)
Theorem extract_with_gemini_reads_prefix :
  forall (W : Type) (env : Environment W) (r1 r2 : Response) (u : string)
         (st : state W),
    status_code r1 = status_code r2 ->
    Str.take (50 * 1000) (response_text r1)
    = Str.take (50 * 1000) (response_text r2) ->
    extract_with_gemini (with_response env r1) u st
    = extract_with_gemini (with_response env r2) u st.
Proof.
  intros W env r1 r2 u st Hstatus Htake.
  unfold extract_with_gemini, bind, emit, try_except, call_world,
    raise_for_status.
  cbn [requests_get with_response world trace].
  rewrite Hstatus, Htake. reflexivity.
Qed.

Lemma take_replicate_app (n : nat) (c : ascii) (t : string) :
  Str.take n (Examples.replicate n c ++ t) = Examples.replicate n c.
Proof.
  induction n as [|n IH]; simpl; [destruct t; reflexivity|].
  rewrite IH. reflexivity.
Qed.

Lemma extract_with_gemini_reads_prefix_witness :
  extract_with_gemini
    (with_response Examples.llm_site (Examples.long_page "<p>first</p>"))
    Examples.page_url Examples.start
  = extract_with_gemini
      (with_response Examples.llm_site (Examples.long_page "<p>second</p>"))
      Examples.page_url Examples.start.
Proof.
  apply (extract_with_gemini_reads_prefix unit Examples.llm_site
           (Examples.long_page "<p>first</p>")
           (Examples.long_page "<p>second</p>")
           Examples.page_url Examples.start).
  - reflexivity.
  - unfold Examples.long_page. cbn [response_text].
    rewrite !take_replicate_app. reflexivity.
Defined.

(** X8.  A JSON object without the key text makes the parsing step return
    the negative result: the key is read with a default and no exception
    is raised. *)
Theorem parse_gemini_response_without_text :
  forall (W : Type) (env : Environment W) (response : string)
         (d : list (string * pyval)) (st : state W),
    json_loads env (strip_code_fences response) = Ok (PyDict d) ->
    dict_lookup d "text" = None ->
    parse_gemini_response env response st = (Ok (None, PyNone), st).
Proof.
  intros W env response d st Hjson Htext.
  unfold parse_gemini_response, bind, call_pure. rewrite Hjson.
  unfold call_get, ret. rewrite Htext. reflexivity.
Qed.

Lemma parse_gemini_response_without_text_witness :
  parse_gemini_response Examples.date_only_site Examples.date_only_completion
    Examples.start
  = (Ok (None, PyNone), Examples.start).
Proof.
  apply (parse_gemini_response_without_text unit Examples.date_only_site
           Examples.date_only_completion [("date", PyStr "2024-01-15")]
           Examples.start); reflexivity.
Defined.

(** X9.  On a JSON object whose text is a string, the parsing step never
    raises: it returns the stripped text with the value of the key date as
    it is ([None] when the key is missing) when the stripped text is
    longer than a hundred characters, and the negative result otherwise. *)
Theorem parse_gemini_response_with_text :
  forall (W : Type) (env : Environment W) (response : string)
         (d : list (string * pyval)) (text : string) (st : state W),
    json_loads env (strip_code_fences response) = Ok (PyDict d) ->
    dict_lookup d "text" = Some (PyStr text) ->
    parse_gemini_response env response st
    = (Ok (if (100 <? String.length (Str.strip text))%nat
           then (Some (Str.strip text), date_field d)
           else (None, PyNone)), st).
Proof.
  intros W env response d text st Hjson Htext.
  unfold parse_gemini_response, bind, call_pure. rewrite Hjson.
  unfold call_get, call_strip, ret, date_field. rewrite Htext.
  unfold long_enough.
  destruct (100 <? String.length (Str.strip text))%nat eqn:E.
  - destruct (Str.strip text); [discriminate E | reflexivity].
  - rewrite andb_false_r. reflexivity.
Qed.

Lemma parse_gemini_response_with_text_witness :
  parse_gemini_response Examples.llm_site Examples.article_payload
    Examples.start
  = (Ok (if (100 <? String.length (Str.strip Examples.article_body))%nat
         then (Some (Str.strip Examples.article_body),
               date_field [("text", PyStr Examples.article_body);
                           ("date", PyStr "2024-01-15")])
         else (None, PyNone)), Examples.start).
Proof.
  apply (parse_gemini_response_with_text unit Examples.llm_site
           Examples.article_payload
           [("text", PyStr Examples.article_body);
            ("date", PyStr "2024-01-15")]
           Examples.article_body Examples.start); reflexivity.
Defined.

(** X10.  When [trafilatura.fetch_url] returns [None] or an empty page,
    the trafilatura stage returns the negative result. *)
Theorem extract_with_trafilatura_nothing_downloaded :
  forall (W : Type) (env : Environment W) (u : string) (st : state W)
         (downloaded : option string) (w1 : W),
    trafilatura_fetch_url env u (world st) = (Ok downloaded, w1) ->
    downloaded = None \/ downloaded = Some "" ->
    extract_with_trafilatura env u st
    = (Ok (None, PyNone), mk_state w1 (trace st ++ [Invoked Trafilatura u])).
Proof.
  intros W env u st downloaded w1 Hfetch Hnone.
  unfold extract_with_trafilatura, bind, emit, try_except, call_world.
  cbn [world trace]. rewrite Hfetch.
  destruct Hnone as [-> | ->]; reflexivity.
Qed.

Lemma extract_with_trafilatura_nothing_downloaded_witness :
  extract_with_trafilatura Examples.unreadable_site Examples.page_url
    Examples.start
  = (Ok (None, PyNone),
     mk_state tt ([] ++ [Invoked Trafilatura Examples.page_url])).
Proof.
  apply (extract_with_trafilatura_nothing_downloaded unit
           Examples.unreadable_site Examples.page_url Examples.start None tt).
  - reflexivity.
  - left. reflexivity.
Defined.

(** ** Dates *)

Module DateFacts.

Lemma digit_is_digit (k : nat) :
  k < 10 -> is_digit (digit k) = true /\ digit_value (digit k) = k.
Proof.
  intros H. do 10 (destruct k as [|k]; [split; reflexivity|]). lia.
Qed.

Lemma zero_padded_four (y : nat) :
  y < 10 ^ 4 ->
  zero_padded 4 y
  = String (digit (y / 10 / 10 / 10 mod 10))
      (String (digit (y / 10 / 10 mod 10))
         (String (digit (y / 10 mod 10))
            (String (digit (y mod 10)) EmptyString))).
Proof.
  intros H. unfold zero_padded. apply Nat.ltb_lt in H. rewrite H.
  reflexivity.
Qed.

Lemma zero_padded_two (m : nat) :
  m < 10 ^ 2 ->
  zero_padded 2 m
  = String (digit (m / 10 mod 10)) (String (digit (m mod 10)) EmptyString).
Proof.
  intros H. unfold zero_padded. apply Nat.ltb_lt in H. rewrite H.
  reflexivity.
Qed.

Lemma four_digits_value (y : nat) :
  y < 10 ^ 4 ->
  1000 * (y / 10 / 10 / 10 mod 10) + 100 * (y / 10 / 10 mod 10)
  + 10 * (y / 10 mod 10) + y mod 10 = y.
Proof.
  change (10 ^ 4) with (10 * (10 * (10 * 10))). intros H.
  pose proof (Nat.div_mod_eq y 10) as E1.
  pose proof (Nat.div_mod_eq (y / 10) 10) as E2.
  pose proof (Nat.div_mod_eq (y / 10 / 10) 10) as E3.
  assert (Hs : y / 10 / 10 / 10 < 10)
    by (repeat (apply Nat.Div0.div_lt_upper_bound); exact H).
  rewrite (Nat.mod_small _ 10 Hs). lia.
Qed.

Lemma two_digits_value (m : nat) :
  m < 10 ^ 2 -> 10 * (m / 10 mod 10) + m mod 10 = m.
Proof.
  change (10 ^ 2) with (10 * 10). intros H.
  pose proof (Nat.div_mod_eq m 10) as E1.
  assert (Hs : m / 10 < 10)
    by (apply Nat.Div0.div_lt_upper_bound; exact H).
  rewrite (Nat.mod_small _ 10 Hs). lia.
Qed.

Lemma read_digits (a b c e m1 m2 d1 d2 : nat) :
  a < 10 -> b < 10 -> c < 10 -> e < 10 ->
  m1 < 10 -> m2 < 10 -> d1 < 10 -> d2 < 10 ->
  read_canonical_date
    (String (digit a) (String (digit b) (String (digit c) (String (digit e)
       (String "-" (String (digit m1) (String (digit m2)
          (String "-" (String (digit d1) (String (digit d2)
             EmptyString))))))))))
  = if valid_date (mk_date (1000 * a + 100 * b + 10 * c + e)
                     (10 * m1 + m2) (10 * d1 + d2))
    then Some (mk_date (1000 * a + 100 * b + 10 * c + e)
                 (10 * m1 + m2) (10 * d1 + d2))
    else None.
Proof.
  intros Ha Hb Hc He Hm1 Hm2 Hd1 Hd2.
  destruct (digit_is_digit a Ha) as [Ia Va].
  destruct (digit_is_digit b Hb) as [Ib Vb].
  destruct (digit_is_digit c Hc) as [Ic Vc].
  destruct (digit_is_digit e He) as [Ie Ve].
  destruct (digit_is_digit m1 Hm1) as [Im1 Vm1].
  destruct (digit_is_digit m2 Hm2) as [Im2 Vm2].
  destruct (digit_is_digit d1 Hd1) as [Id1 Vd1].
  destruct (digit_is_digit d2 Hd2) as [Id2 Vd2].
  unfold read_canonical_date. cbn [forallb].
  rewrite Ia, Ib, Ic, Ie, Im1, Im2, Id1, Id2.
  rewrite Va, Vb, Vc, Ve, Vm1, Vm2, Vd1, Vd2.
  rewrite Ascii.eqb_refl. reflexivity.
Qed.

Lemma days_in_month_bound (y m : nat) : days_in_month y m <= 31.
Proof.
  unfold days_in_month.
  do 13 (destruct m as [|m]; [try destruct (is_leap y); lia|]). lia.
Qed.

(** Reading the canonical form of a date of the calendar gives the date
    back. *)
Lemma read_date_isoformat (d : date) :
  valid_date d = true -> read_canonical_date (date_isoformat d) = Some d.
Proof.
  destruct d as [y m dd]. intros Hv. pose proof Hv as Hv'.
  unfold valid_date in Hv'. cbn [year month day] in Hv'.
  apply andb_prop in Hv' as [Hv' Hdd]. apply andb_prop in Hv' as [Hv' _].
  apply andb_prop in Hv' as [Hv' Hmm]. apply andb_prop in Hv' as [Hv' _].
  apply andb_prop in Hv' as [_ Hy].
  apply Nat.ltb_lt in Hy. apply Nat.leb_le in Hmm, Hdd.
  pose proof (days_in_month_bound y m) as Hdim.
  assert (Hm : m < 10 ^ 2) by (change (10 ^ 2) with 100; lia).
  assert (Hd : dd < 10 ^ 2) by (change (10 ^ 2) with 100; lia).
  unfold date_isoformat. cbn [year month day].
  rewrite (zero_padded_four y Hy), (zero_padded_two m Hm),
    (zero_padded_two dd Hd).
  cbn [append].
  rewrite read_digits by (apply Nat.mod_upper_bound; discriminate).
  rewrite (four_digits_value y Hy), (two_digits_value m Hm),
    (two_digits_value dd Hd), Hv.
  reflexivity.
Qed.

End DateFacts.

Section NormalizerFacts.

Context {W : Type} (env : Environment W).

(** A date the normalizer returns is the canonical form of the date part
    of what dateutil parsed. *)
Lemma normalize_date_some (v : pyval) (st : state W) s st' :
  normalize_date env v st = (Ok (Some s), st') ->
  exists dt, date_parser_parse env v (world st) = Ok dt
             /\ s = date_isoformat (dt_date dt).
Proof.
  unfold normalize_date, try_except, bind, call_reading, ret.
  destruct (negb (truthy v)); [discriminate|].
  destruct (date_parser_parse env v (world st)) as [dt|e].
  - intros [= <- _]. eauto.
  - destruct (catches _ _ e); discriminate.
Qed.

Lemma normalize_date_of_canonical (s : string) (d : date) (st : state W) :
  reads_canonical_dates env ->
  read_canonical_date s = Some d ->
  normalize_date env (PyStr s) st = (Ok (Some s), st).
Proof.
  intros Hread Hs.
  destruct (Hread s d (world st) Hs) as [dt [Hp Hd]].
  assert (Hne : truthy (PyStr s) = true)
    by (destruct s; [discriminate Hs | reflexivity]).
  unfold normalize_date. rewrite Hne. cbn [negb].
  unfold try_except, bind, call_reading, ret. rewrite Hp, Hd.
  rewrite (date_isoformat_read s d Hs). reflexivity.
Qed.

End NormalizerFacts.

(** X11.  A date [normalize_date] returns is in canonical form (four
    digits, dash, two digits, dash, two digits) and names the date part of
    what dateutil parsed: the time of day and the offset are dropped.
    dateutil is assumed to return dates of the calendar. *)
Theorem normalize_date_output_is_canonical :
  forall (W : Type) (env : Environment W) (v : pyval) (st : state W)
         (s : string) (st' : state W),
    returns_calendar_dates env ->
    normalize_date env v st = (Ok (Some s), st') ->
    exists dt,
      date_parser_parse env v (world st) = Ok dt
      /\ read_canonical_date s = Some (dt_date dt)
      /\ String.length s = 10.
Proof.
  intros W env v st s st' Hcal H.
  destruct (normalize_date_some env v st s st' H) as [dt [Hp ->]].
  exists dt. split; [exact Hp|].
  pose proof (DateFacts.read_date_isoformat (dt_date dt) (Hcal _ _ _ Hp))
    as Hr.
  split; [exact Hr|].
  unfold read_canonical_date in Hr.
  destruct (date_isoformat (dt_date dt))
    as [|? [|? [|? [|? [|? [|? [|? [|? [|? [|? [|]]]]]]]]]]];
    try discriminate Hr.
  reflexivity.
Qed.

Lemma normalize_date_output_is_canonical_witness :
  exists dt,
    date_parser_parse Examples.llm_site (PyStr "2024-02-29")
      (world Examples.start) = Ok dt
    /\ read_canonical_date "2024-02-29" = Some (dt_date dt)
    /\ String.length "2024-02-29" = 10.
Proof.
  apply (normalize_date_output_is_canonical unit Examples.llm_site
           (PyStr "2024-02-29") Examples.start "2024-02-29" Examples.start).
  - intros v w dt H. destruct v; try discriminate H. simpl in H.
    destruct (read_canonical_date s) as [d|] eqn:E; [|discriminate H].
    injection H as <-. simpl. unfold read_canonical_date in E.
    destruct s as [|? [|? [|? [|? [|? [|? [|? [|? [|? [|? [|]]]]]]]]]]];
      try discriminate E.
    destruct (_ && _ && _)%bool; [|discriminate E].
    match type of E with
    | (if ?b then _ else _) = _ => destruct b eqn:V; [|discriminate E]
    end.
    injection E as <-. exact V.
  - vm_compute. reflexivity.
Defined.

(** X12.  [normalize_date] is idempotent: a date it returns is returned
    unchanged when normalized again.  dateutil is assumed to return dates
    of the calendar and to read a canonical date as the date it names. *)
Theorem normalize_date_idempotent :
  forall (W : Type) (env : Environment W) (v : pyval) (st : state W)
         (s : string) (st' : state W),
    returns_calendar_dates env ->
    reads_canonical_dates env ->
    normalize_date env v st = (Ok (Some s), st') ->
    normalize_date env (PyStr s) st' = (Ok (Some s), st').
Proof.
  intros W env v st s st' Hcal Hread H.
  destruct (normalize_date_some env v st s st' H) as [dt [Hp ->]].
  apply (normalize_date_of_canonical env _ (dt_date dt)); [exact Hread|].
  apply DateFacts.read_date_isoformat, (Hcal _ _ _ Hp).
Qed.



Lemma example_dates_are_calendar_dates :
  returns_calendar_dates Examples.llm_site.
Proof.
  intros v w dt H. destruct v; try discriminate H. simpl in H.
  destruct (read_canonical_date s) as [d|] eqn:E; [|discriminate H].
  injection H as <-. simpl. unfold read_canonical_date in E.
  destruct s as [|? [|? [|? [|? [|? [|? [|? [|? [|? [|? [|]]]]]]]]]]];
    try discriminate E.
  destruct (_ && _ && _)%bool; [|discriminate E].
  match type of E with
  | (if ?b then _ else _) = _ => destruct b eqn:V; [|discriminate E]
  end.
  injection E as <-. exact V.
Qed.

Lemma example_dates_are_read : reads_canonical_dates Examples.llm_site.
Proof.
  intros s d w H. exists (Examples.midnight d). simpl. rewrite H.
  split; reflexivity.
Qed.

Lemma normalize_date_idempotent_witness :
  normalize_date Examples.llm_site (PyStr "2024-02-29") Examples.start
  = (Ok (Some "2024-02-29"), Examples.start).
Proof.
  apply (normalize_date_idempotent unit Examples.llm_site
           (PyStr "2024-02-29") Examples.start "2024-02-29" Examples.start).
  - exact example_dates_are_calendar_dates.
  - exact example_dates_are_read.
  - vm_compute. reflexivity.
Defined.

(** ** The orchestrator *)

Section OrchestratorMoreFacts.

Context {W : Type} (env : Environment W).

Lemma success_branch_state (d : pyval) (f : option string -> ExtractionResult)
    (st : state W) :
  snd (bind (normalize_date env d) (fun nd => ret (f nd)) st) = st.
Proof.
  unfold bind.
  destruct (normalize_date env d st) as [[nd|e] st1] eqn:E;
    apply normalize_date_state in E; subst st1; reflexivity.
Qed.

Lemma success_branch_date (d : pyval) (f : option string -> ExtractionResult)
    (st : state W) r st' :
  bind (normalize_date env d) (fun nd => ret (f nd)) st = (Ok r, st') ->
  exists nd, normalize_date env d st = (Ok nd, st') /\ r = f nd.
Proof.
  intros H. apply bind_ok in H as [nd [st1 [Hn H]]].
  injection H as <- <-. eauto.
Qed.

End OrchestratorMoreFacts.

(** X14.  Whatever its outcome, a call of [extract_from_url] on a string
    enters the stages in the fixed order, each at most once and on the
    stripped URL: the trace grows by a prefix of newspaper, trafilatura,
    gemini. *)
Theorem extract_from_url_stage_order :
  forall (W : Type) (env : Environment W) (s idv : string) (st : state W),
    exists l,
      In l pipeline_prefixes
      /\ trace (snd (extract_from_url env (PyStr s) idv st))
         = (trace st ++ map (fun x => Invoked x (Str.strip s)) l)%list.
Proof.
  intros W env s idv st. unfold extract_from_url.
  destruct (negb (Str.nonempty s) || negb (Str.nonempty (Str.strip s))).
  { exists []. split; [left; reflexivity|]. simpl. rewrite app_nil_r.
    reflexivity. }
  set (u := Str.strip s).
  unfold bind at 1.
  destruct (extract_with_newspaper env u st) as [[r1|e1] st1] eqn:E1;
    pose proof (stage_trace env Newspaper u st _ _ E1) as T1.
  2:{ exists [Newspaper]. split; [right; left; reflexivity | exact T1]. }
  destruct (found (fst r1)).
  { exists [Newspaper]. split; [right; left; reflexivity|].
    rewrite success_branch_state. exact T1. }
  unfold bind at 1.
  destruct (extract_with_trafilatura env u st1) as [[r2|e2] st2] eqn:E2;
    pose proof (stage_trace env Trafilatura u st1 _ _ E2) as T2.
  2:{ exists [Newspaper; Trafilatura].
      split; [right; right; left; reflexivity|].
      cbn [snd]. rewrite T2, T1, <- app_assoc. reflexivity. }
  destruct (found (fst r2)).
  { exists [Newspaper; Trafilatura].
    split; [right; right; left; reflexivity|].
    rewrite success_branch_state, T2, T1, <- app_assoc. reflexivity. }
  exists [Newspaper; Trafilatura; Gemini].
  split; [right; right; right; left; reflexivity|].
  unfold bind at 1.
  destruct (extract_with_gemini env u st2) as [[r3|e3] st3] eqn:E3;
    pose proof (stage_trace env Gemini u st2 _ _ E3) as T3.
  2:{ cbn [snd]. rewrite T3, T2, T1, <- !app_assoc. reflexivity. }
  destruct (found (fst r3)).
  - rewrite success_branch_state, T3, T2, T1, <- !app_assoc. reflexivity.
  - unfold ExtractionResult_create_error, raise. cbn [snd].
    rewrite T3, T2, T1, <- !app_assoc. reflexivity.
Qed.

(** X15.  A result [extract_from_url] returns carries the identifier it
    was given and the URL stripped of surrounding whitespace, which is not
    empty; its error message is unset. *)
Theorem extract_from_url_result_fields :
  forall (W : Type) (env : Environment W) (u : pyval) (idv : string)
         (st : state W) (r : ExtractionResult) (st' : state W),
    extract_from_url env u idv st = (Ok r, st') ->
    exists s,
      u = PyStr s /\ id_value r = idv /\ url r = Str.strip s
      /\ url r <> "" /\ error_message r = None.
Proof.
  intros W env u idv st r st' H. unfold extract_from_url in H.
  destruct u; try discriminate H. exists s. split; [reflexivity|].
  destruct (negb (Str.nonempty s) || negb (Str.nonempty (Str.strip s)))
    eqn:G; [discriminate H|].
  apply orb_false_elim in G as [_ G]. apply negb_false_iff in G.
  assert (Hne : Str.strip s <> "") by (intros E; rewrite E in G; discriminate G).
  apply bind_ok in H as [r1 [st1 [_ H]]].
  destruct (found (fst r1)).
  { apply success_branch_date in H as [nd [_ ->]]. simpl. auto. }
  apply bind_ok in H as [r2 [st2 [_ H]]].
  destruct (found (fst r2)).
  { apply success_branch_date in H as [nd [_ ->]]. simpl. auto. }
  apply bind_ok in H as [r3 [st3 [_ H]]].
  destruct (found (fst r3)); [|discriminate H].
  apply success_branch_date in H as [nd [_ ->]]. simpl. auto.
Qed.

Lemma extract_from_url_result_fields_witness :
  exists s,
    PyStr ("  " ++ Examples.page_url ++ " ") = PyStr s
    /\ id_value (success "a1" Examples.page_url Examples.article_body None
                   Trafilatura) = "a1"
    /\ url (success "a1" Examples.page_url Examples.article_body None
              Trafilatura) = Str.strip s
    /\ url (success "a1" Examples.page_url Examples.article_body None
              Trafilatura) <> ""
    /\ error_message (success "a1" Examples.page_url Examples.article_body
                        None Trafilatura) = None.
Proof.
  apply (extract_from_url_result_fields unit Examples.second_stage_site
           (PyStr ("  " ++ Examples.page_url ++ " ")) "a1" Examples.start
           (success "a1" Examples.page_url Examples.article_body None
              Trafilatura)
           (mk_state tt [Invoked Newspaper Examples.page_url;
                         Invoked Trafilatura Examples.page_url])).
  vm_compute. reflexivity.
Defined.

(** X16.  The publication date of a result [extract_from_url] returns is
    unset or in canonical form.  dateutil is assumed to return dates of
    the calendar. *)
Theorem extract_from_url_publication_date :
  forall (W : Type) (env : Environment W) (u : pyval) (idv : string)
         (st : state W) (r : ExtractionResult) (st' : state W),
    returns_calendar_dates env ->
    extract_from_url env u idv st = (Ok r, st') ->
    publication_date r = None
    \/ exists s d, publication_date r = Some s
                   /\ read_canonical_date s = Some d.
Proof.
  intros W env u idv st r st' Hcal H.
  assert (Hbranch :
            forall d0 (st0 : state W) text k,
              bind (normalize_date env d0)
                (fun nd => ret (success idv (match u with
                                             | PyStr s => Str.strip s
                                             | _ => ""
                                             end) text nd k)) st0
              = (Ok r, st') ->
              publication_date r = None
              \/ exists s d, publication_date r = Some s
                             /\ read_canonical_date s = Some d).
  { intros d0 st0 text k Hb.
    apply success_branch_date in Hb as [nd [Hn ->]]. simpl.
    destruct nd as [s|]; [right | left; reflexivity].
    destruct (normalize_date_some env d0 st0 s st' Hn) as [dt [Hp ->]].
    exists (date_isoformat (dt_date dt)), (dt_date dt).
    split; [reflexivity|].
    apply DateFacts.read_date_isoformat, (Hcal _ _ _ Hp). }
  unfold extract_from_url in H.
  destruct u; try discriminate H.
  destruct (negb (Str.nonempty s) || negb (Str.nonempty (Str.strip s)));
    [discriminate H|].
  apply bind_ok in H as [r1 [st1 [_ H]]].
  destruct (found (fst r1)); [exact (Hbranch _ _ _ _ H)|].
  apply bind_ok in H as [r2 [st2 [_ H]]].
  destruct (found (fst r2)); [exact (Hbranch _ _ _ _ H)|].
  apply bind_ok in H as [r3 [st3 [_ H]]].
  destruct (found (fst r3)); [exact (Hbranch _ _ _ _ H) | discriminate H].
Qed.

Lemma extract_from_url_publication_date_witness :
  publication_date
    (success "a1" Examples.page_url Examples.article_body
       (Some "2024-01-15") Gemini) = None
  \/ exists s d,
       publication_date
         (success "a1" Examples.page_url Examples.article_body
            (Some "2024-01-15") Gemini) = Some s
       /\ read_canonical_date s = Some d.
Proof.
  apply (extract_from_url_publication_date unit Examples.llm_site
           (PyStr Examples.page_url) "a1" Examples.start _
           (mk_state tt [Invoked Newspaper Examples.page_url;
                         Invoked Trafilatura Examples.page_url;
                         Invoked Gemini Examples.page_url])).
  - exact example_dates_are_calendar_dates.
  - vm_compute. reflexivity.
Defined.

(** ** The batch processor *)

Section BatchMoreFacts.

Context {W : Type} (env : Environment W).

Lemma row_getitem_writes_nothing (df : DataFrame) row col :
  writes_nothing (row_getitem (W:=W) df row col).
Proof.
  intros st r st' H. rewrite (row_getitem_state _ _ _ _ _ _ H). reflexivity.
Qed.

Lemma process_url_columns_writes_nothing (df : DataFrame) row idv url_cols :
  forall results,
    writes_nothing (process_url_columns env df row idv url_cols results).
Proof.
  induction url_cols as [|col rest IH]; intros results.
  - apply keeps_trace_writes_nothing, keeps_trace_ret.
  - cbn [process_url_columns].
    apply writes_nothing_bind; [apply row_getitem_writes_nothing|].
    intros u. apply writes_nothing_bind;
      [apply extract_from_url_writes_nothing | intros r; apply IH].
Qed.

Lemma process_rows_writes_nothing (df : DataFrame) config rws :
  forall results, writes_nothing (process_rows env df config rws results).
Proof.
  induction rws as [|row rest IH]; intros results.
  - apply keeps_trace_writes_nothing, keeps_trace_ret.
  - cbn [process_rows].
    apply writes_nothing_bind; [apply row_getitem_writes_nothing|].
    intros v. apply writes_nothing_bind;
      [apply process_url_columns_writes_nothing | intros r; apply IH].
Qed.

Lemma index_of_some (col : string) (cols : list string) :
  existsb (String.eqb col) cols = true ->
  exists i, index_of col cols = Some i /\ i < length cols.
Proof.
  induction cols as [|c cs IH]; simpl; [discriminate|].
  destruct (String.eqb c col) eqn:E.
  - intros _. exists 0. split; [reflexivity | lia].
  - rewrite String.eqb_sym, E. simpl. intros H.
    destruct (IH H) as [i [Hi Hlt]]. exists (S i). rewrite Hi.
    split; [reflexivity | lia].
Qed.

(** In a row as long as the header, every column of the table has a
    cell. *)
Lemma cell_exists (df : DataFrame) (row : list pyval) (col : string) :
  has_column df col = true -> length row = length (columns df) ->
  exists v, cell df row col = Some v.
Proof.
  intros Hc Hlen. unfold has_column in Hc.
  destruct (index_of_some col (columns df) Hc) as [i [Hi Hlt]].
  unfold cell. rewrite Hi.
  destruct (nth_error row i) as [v|] eqn:E; [eauto|].
  apply nth_error_None in E. lia.
Qed.

Lemma row_getitem_returns (df : DataFrame) row col v (st : state W) :
  cell df row col = Some v -> row_getitem df row col st = (Ok v, st).
Proof.
  unfold cell, row_getitem.
  destruct (index_of col (columns df)); [|discriminate].
  intros ->. reflexivity.
Qed.

Lemma process_url_columns_returns (df : DataFrame) row idv url_cols :
  (forall col, In col url_cols ->
     exists v, cell df row col = Some v
               /\ forall st0, exists r st1,
                    extract_from_url env v idv st0 = (Ok r, st1)) ->
  forall results (st : state W),
    exists out st',
      process_url_columns env df row idv url_cols results st = (Ok out, st').
Proof.
  induction url_cols as [|col rest IH]; intros Hall results st.
  - exists results, st. reflexivity.
  - cbn [process_url_columns].
    destruct (Hall col (or_introl eq_refl)) as [v [Hcell Hex]].
    rewrite (bind_step _ _ _ _ _ (row_getitem_returns df row col v st Hcell)).
    destruct (Hex st) as [r [st1 Hr]]. rewrite (bind_step _ _ _ _ _ Hr).
    apply IH. intros c Hin. apply Hall. right. exact Hin.
Qed.

Lemma process_rows_returns (df : DataFrame) config rws :
  (forall row, In row rws ->
     (exists v, cell df row (id_column config) = Some v)
     /\ forall col, In col (url_columns config) ->
          exists v, cell df row col = Some v
                    /\ forall idv st0, exists r st1,
                         extract_from_url env v idv st0 = (Ok r, st1)) ->
  forall results (st : state W),
    exists out st',
      process_rows env df config rws results st = (Ok out, st').
Proof.
  induction rws as [|row rest IH]; intros Hall results st.
  - exists results, st. reflexivity.
  - cbn [process_rows].
    destruct (Hall row (or_introl eq_refl)) as [[v Hid] Hcols].
    rewrite (bind_step _ _ _ _ _
               (row_getitem_returns df row (id_column config) v st Hid)).
    destruct (process_url_columns_returns df row (builtin_str env v)
                (url_columns config)
                (fun col Hin =>
                   match Hcols col Hin with
                   | ex_intro _ x (conj Hc Hx) =>
                       ex_intro _ x (conj Hc (Hx (builtin_str env v)))
                   end)
                results st) as [mid [st1 Hmid]].
    rewrite (bind_step _ _ _ _ _ Hmid).
    apply IH. intros r Hin. apply Hall. right. exact Hin.
Qed.

End BatchMoreFacts.

(** X17.  When [process_csv] returns, it has written one table to the
    output path: one row per pair of an input row and a configured URL
    column, rows first and columns in the configured order, each carrying
    the identifier of its row and the stripped URL of its cell. *)
Theorem process_csv_one_row_per_pair :
  forall (W : Type) (env : Environment W) (input_csv output_csv : string)
         (config : Config) (st st' : state W),
    process_csv env input_csv output_csv config st = (Ok tt, st') ->
    exists df w1 results,
      pd_read_csv env input_csv (world st) = (Ok df, w1)
      /\ Forall2 (comes_from env df config)
           (pairs (rows df) (url_columns config)) results
      /\ length results = length (rows df) * length (url_columns config)
      /\ written_tables (trace st')
         = (written_tables (trace st)
            ++ [(output_csv, map output_row results)])%list.
Proof. exact process_csv_returned. Qed.

Lemma process_csv_one_row_per_pair_witness :
  exists df w1 results,
    pd_read_csv Examples.readable_site "in.csv" (world Examples.start)
    = (Ok df, w1)
    /\ Forall2 (comes_from Examples.readable_site df Examples.id_url_mirror)
         (pairs (rows df) (url_columns Examples.id_url_mirror)) results
    /\ length results
       = length (rows df) * length (url_columns Examples.id_url_mirror)
    /\ written_tables
         (trace (snd (process_csv Examples.readable_site "in.csv" "out.csv"
                        Examples.id_url_mirror Examples.start)))
       = (written_tables (trace Examples.start)
          ++ [("out.csv", map output_row results)])%list.
Proof.
  apply (process_csv_one_row_per_pair unit Examples.readable_site "in.csv"
           "out.csv" Examples.id_url_mirror Examples.start
           (snd (process_csv Examples.readable_site "in.csv" "out.csv"
                   Examples.id_url_mirror Examples.start))).
  vm_compute. reflexivity.
Defined.

(** X18.  When [process_csv] raises, no table has been handed to [to_csv],
    unless the exception is that of [to_csv] itself: a failure while the
    rows are processed leaves no partial output. *)
Theorem process_csv_failure_writes_nothing :
  forall (W : Type) (env : Environment W) (input_csv output_csv : string)
         (config : Config) (st : state W) (e : exn) (st' : state W),
    process_csv env input_csv output_csv config st = (Raise e, st') ->
    written_tables (trace st') = written_tables (trace st)
    \/ exists table w w',
         DataFrame_to_csv env table output_csv w = (Raise e, w').
Proof.
  intros W env input_csv output_csv config st e st' H.
  unfold process_csv in H. unfold bind at 1 in H.
  destruct (call_world (pd_read_csv env input_csv) st) as [[df|e0] st1] eqn:E0;
    pose proof (keeps_trace_call_world _ _ _ _ E0) as T0.
  2:{ injection H as _ <-. left. rewrite T0. reflexivity. }
  destruct (negb (has_column df (id_column config))).
  { injection H as _ <-. left. rewrite T0. reflexivity. }
  destruct (filter _ (url_columns config)).
  2:{ injection H as _ <-. left. rewrite T0. reflexivity. }
  unfold bind at 1 in H.
  destruct (process_rows env df config (rows df) [] st1)
    as [[results|e1] st2] eqn:E1;
    pose proof (process_rows_writes_nothing env _ _ _ _ _ _ _ E1) as T1.
  2:{ injection H as _ <-. left. rewrite T1, T0. reflexivity. }
  unfold bind, emit, call_world in H. cbn [world trace] in H.
  destruct (DataFrame_to_csv env (map output_row results) output_csv
              (world st2)) as [[[]|e2] w3] eqn:E2; [discriminate H|].
  injection H as <- _. right. eauto.
Qed.

Lemma process_csv_failure_writes_nothing_witness :
  written_tables (trace Examples.start) = written_tables (trace Examples.start)
  \/ exists table w w',
       DataFrame_to_csv Examples.empty_cell_site table "out.csv" w
       = (Raise no_create_error, w').
Proof.
  apply (process_csv_failure_writes_nothing unit Examples.empty_cell_site
           "in.csv" "out.csv" Examples.id_and_url Examples.start
           no_create_error Examples.start).
  vm_compute. reflexivity.
Defined.

(** X19.  [process_csv] returns, without raising, when the table is
    rectangular, the identifier column and the URL columns exist, the
    orchestrator returns a result for every URL cell, and [to_csv]
    returns: a [KeyError] never arises from a validated column. *)
Theorem process_csv_completes :
  forall (W : Type) (env : Environment W) (input_csv output_csv : string)
         (config : Config) (st : state W) (df : DataFrame) (w1 : W),
    pd_read_csv env input_csv (world st) = (Ok df, w1) ->
    rectangular df ->
    has_column df (id_column config) = true ->
    (forall col, In col (url_columns config) -> has_column df col = true) ->
    (forall row col v,
       In row (rows df) -> In col (url_columns config) ->
       cell df row col = Some v ->
       forall idv st0, exists r st1,
         extract_from_url env v idv st0 = (Ok r, st1)) ->
    (forall table w, exists w',
       DataFrame_to_csv env table output_csv w = (Ok tt, w')) ->
    exists st', process_csv env input_csv output_csv config st = (Ok tt, st').
Proof.
  intros W env input_csv output_csv config st df w1 Hread Hrect Hid Hcols
    Hex Hcsv.
  unfold process_csv. unfold bind at 1. unfold call_world at 1.
  rewrite Hread, Hid. cbn [negb].
  assert (Hf : filter (fun col => negb (has_column df col))
                 (url_columns config) = []).
  { destruct (filter _ (url_columns config)) as [|c cs] eqn:E;
      [reflexivity|].
    assert (Hin : In c (filter (fun col => negb (has_column df col))
                          (url_columns config)))
      by (rewrite E; left; reflexivity).
    apply filter_In in Hin as [Hin Hneg]. rewrite (Hcols c Hin) in Hneg.
    discriminate Hneg. }
  rewrite Hf.
  destruct (process_rows_returns env df config (rows df)) with
    (results := @nil ExtractionResult) (st := mk_state w1 (trace st))
    as [results [st2 Hrows]].
  { intros row Hrow. split.
    - apply cell_exists; [exact Hid | apply Hrect, Hrow].
    - intros col Hcol.
      destruct (cell_exists df row col (Hcols col Hcol) (Hrect row Hrow))
        as [v Hv].
      exists v. split; [exact Hv|]. apply (Hex row col v Hrow Hcol Hv). }
  rewrite (bind_step _ _ _ _ _ Hrows).
  unfold bind, emit, call_world. cbn [world trace].
  destruct (Hcsv (map output_row results) (world st2)) as [w3 Hw].
  rewrite Hw. eauto.
Qed.

Lemma process_csv_completes_witness :
  exists st',
    process_csv Examples.readable_site "in.csv" "out.csv"
      Examples.id_url_mirror Examples.start = (Ok tt, st').
Proof.
  apply (process_csv_completes unit Examples.readable_site "in.csv" "out.csv"
           Examples.id_url_mirror Examples.start Examples.two_by_two tt).
  - reflexivity.
  - intros row [<- | [<- | []]]; reflexivity.
  - reflexivity.
  - intros col [<- | [<- | []]]; reflexivity.
  - intros row col v Hrow Hcol Hcell idv st0.
    destruct Hrow as [<- | [<- | []]]; destruct Hcol as [<- | [<- | []]];
      cbv in Hcell; injection Hcell as <-;
      eexists; eexists; cbv; reflexivity.
  - intros table w. exists w. reflexivity.
Defined.

(** X20.  The output row keeps every field of a result: two results that
    differ give rows that differ. *)
Theorem output_row_keeps_every_field :
  forall (r1 r2 : ExtractionResult),
    r1 <> r2 -> output_row r1 <> output_row r2.
Proof.
  intros r1 r2 Hne Heq. apply Hne.
  destruct r1 as [i1 u1 t1 p1 m1 s1 e1], r2 as [i2 u2 t2 p2 m2 s2 e2].
  unfold output_row in Heq. cbn [id_value url extracted_text publication_date
    extraction_method status error_message] in Heq.
  assert (Hopt : forall a b, of_option a = of_option b -> a = b)
    by (intros [a|] [b|]; simpl; congruence).
  injection Heq as Hi Hu Ht Hp Hm Hs He.
  apply Hopt in Ht, Hp, Hm, He. congruence.
Qed.

Lemma output_row_keeps_every_field_witness :
  output_row (success "a1" Examples.page_url Examples.article_body None
                Newspaper)
  <> output_row (success "a1" Examples.page_url Examples.article_body
                   (Some "2024-01-15") Newspaper).
Proof.
  apply (output_row_keeps_every_field
           (success "a1" Examples.page_url Examples.article_body None
              Newspaper)
           (success "a1" Examples.page_url Examples.article_body
              (Some "2024-01-15") Newspaper)).
  discriminate.
Defined.

(** ** Whitespace around a response *)

Module StripFacts.
Import Str StrFacts.

Lemma lstrip_all_space (ws : string) : all_space ws = true -> lstrip ws = "".
Proof.
  induction ws as [|c ws IH]; simpl; intros H; [reflexivity|].
  apply andb_prop in H as [Hc Hs]. rewrite Hc. auto.
Qed.

Lemma lstrip_app (s t : string) :
  lstrip (s ++ t)
  = match lstrip s with
    | EmptyString => lstrip t
    | String _ _ => lstrip s ++ t
    end.
Proof.
  induction s as [|c s IH]; simpl; [reflexivity|].
  destruct (isspace c); [exact IH | reflexivity].
Qed.

(** Whitespace around a text does not change what stripping gives. *)
Lemma strip_outer (l s r : string) :
  all_space l = true -> all_space r = true -> strip (l ++ s ++ r) = strip s.
Proof.
  intros Hl Hr. unfold strip.
  rewrite (lstrip_app_space l _ Hl), lstrip_app.
  destruct (lstrip s) as [|a t].
  - rewrite (lstrip_all_space r Hr). reflexivity.
  - apply rstrip_app_space, Hr.
Qed.

End StripFacts.

(** X21.  Whitespace before and after the whole response of the model
    never changes what the parsing step returns, whatever the response
    is. *)
Theorem parse_gemini_response_ignores_outer_whitespace :
  forall (W : Type) (env : Environment W) (l response r : string)
         (st : state W),
    Str.all_space l = true -> Str.all_space r = true ->
    parse_gemini_response env (l ++ response ++ r) st
    = parse_gemini_response env response st.
Proof.
  intros W env l response r st Hl Hr.
  unfold parse_gemini_response, strip_code_fences.
  rewrite (StripFacts.strip_outer l response r Hl Hr). reflexivity.
Qed.

Lemma parse_gemini_response_ignores_outer_whitespace_witness :
  parse_gemini_response Examples.llm_site
    (Str.nl ++ "not json at all" ++ "  ") Examples.start
  = parse_gemini_response Examples.llm_site "not json at all" Examples.start.
Proof.
  apply (parse_gemini_response_ignores_outer_whitespace unit Examples.llm_site
           Str.nl "not json at all" "  " Examples.start); reflexivity.
Defined.

Section RaisedFacts.

Context {W : Type} (env : Environment W).

Lemma success_branch_raised (d : pyval)
    (f : option string -> ExtractionResult) (st : state W) e st' :
  bind (normalize_date env d) (fun nd => ret (f nd)) st = (Raise e, st') ->
  normalize_date env d st = (Raise e, st').
Proof.
  unfold bind. destruct (normalize_date env d st) as [[nd|e0] st1];
    [discriminate|].
  intros [= <- <-]. reflexivity.
Qed.

End RaisedFacts.

Section DeclinedFacts.

Context {W : Type} (env : Environment W).

(** A stage whose text the orchestrator does not take returned none. *)
Lemma declined_of_not_found (k : stage) (u : string) (st : state W) r st1 :
  run_stage env k u st = (Ok r, st1) -> found (fst r) = None ->
  exists d, run_stage env k u st = (Ok (None, d), st1).
Proof.
  destruct r as [[t|] d]; cbn [fst]; intros H F; [|eauto].
  rewrite (found_long t (stage_text_is_long env _ _ _ _ _ _ H)) in F.
  discriminate F.
Qed.

Lemma taken_of_found (k : stage) (u : string) (st : state W) r st1 t :
  run_stage env k u st = (Ok r, st1) -> found (fst r) = Some t ->
  run_stage env k u st = (Ok (Some t, snd r), st1).
Proof.
  destruct r as [o d]. cbn [fst snd]. intros H F.
  apply found_some in F. subst o. exact H.
Qed.

Lemma invalid_url_guard (s : string) :
  negb (Str.nonempty s) || negb (Str.nonempty (Str.strip s)) = true ->
  invalid_url (PyStr s) = true.
Proof.
  unfold invalid_url. cbn [truthy is_str negb]. intros H.
  destruct (Str.nonempty s); cbn [negb orb] in *; [exact H | reflexivity].
Qed.

Lemma invalid_url_not_str (u : pyval) : is_str u = false -> invalid_url u = true.
Proof.
  unfold invalid_url. intros ->. cbn [negb]. rewrite orb_true_r.
  reflexivity.
Qed.

End DeclinedFacts.

(** X22.  An exception leaves [extract_from_url] in three situations only.
    The test of line 183 holds, or the three stages returned without a
    text: the exception is the [AttributeError] of the undefined
    [ExtractionResult.create_error].  Or the stages before some stage
    returned without a text and that stage raised the exception, which its
    [except] clause does not name.  Or some stage was the first to return
    a text and [normalize_date], on the date of that stage, raised the
    exception, which is neither a [ValueError] nor a [TypeError]. *)
Theorem extract_from_url_raises_only :
  forall (W : Type) (env : Environment W) (u : pyval) (idv : string)
         (st : state W) (e : exn) (st' : state W),
    extract_from_url env u idv st = (Raise e, st') ->
    (e = no_create_error
     /\ ((invalid_url u = true /\ st' = st)
         \/ exists s, u = PyStr s
                      /\ all_declined env pipeline (Str.strip s) st st'))
    \/ (exists s before k after st0,
          u = PyStr s
          /\ pipeline = (before ++ k :: after)%list
          /\ all_declined env before (Str.strip s) st st0
          /\ run_stage env k (Str.strip s) st0 = (Raise e, st')
          /\ catches env (handled_by k) e = false)
    \/ (exists s k text date,
          u = PyStr s
          /\ first_success env pipeline (Str.strip s) st k text date st'
          /\ normalize_date env date st' = (Raise e, st')
          /\ catches env [Lib ValueError; Lib TypeError] e = false).
Proof.
  intros W env u idv st e st' H.
  assert (Hcreate : forall a b c (s0 : state W),
             ExtractionResult_create_error a b c s0 = (Raise e, st') ->
             e = no_create_error /\ st' = s0)
    by (intros a b c s0 [= <- <-]; auto).
  assert (Hnorm : forall d (f : option string -> ExtractionResult) st0,
             bind (normalize_date env d) (fun nd => ret (f nd)) st0
             = (Raise e, st') ->
             st0 = st' /\ normalize_date env d st' = (Raise e, st')
             /\ catches env [Lib ValueError; Lib TypeError] e = false).
  { intros d f st0 Hb. apply success_branch_raised in Hb.
    pose proof (normalize_date_state env _ _ _ _ Hb) as Hst.
    pose proof (normalize_date_raises_unhandled env _ _ _ _ Hb) as Hc.
    split; [symmetry; exact Hst|]. split; [|exact Hc].
    rewrite Hst at 1. rewrite <- Hst in Hb. rewrite <- Hst. exact Hb. }
  unfold extract_from_url in H.
  destruct u;
    try (left; destruct (Hcreate _ _ _ _ H) as [-> ->]; split;
         [reflexivity | left; split;
                        [apply invalid_url_not_str | ]; reflexivity]).
  destruct (negb (Str.nonempty s) || negb (Str.nonempty (Str.strip s)))
    eqn:G.
  { left. destruct (Hcreate _ _ _ _ H) as [-> ->]. split; [reflexivity|].
    left. split; [apply invalid_url_guard, G | reflexivity]. }
  set (u := Str.strip s) in *.
  unfold bind at 1 in H.
  destruct (extract_with_newspaper env u st) as [[r1|e1] st1] eqn:E1.
  2:{ injection H as <- <-. right. left.
      exists s, [], Newspaper, [Trafilatura; Gemini], st.
      repeat split; [constructor | exact E1 |].
      exact (stage_raises_unhandled env Newspaper _ _ _ _ E1). }
  destruct (found (fst r1)) as [t1|] eqn:F1.
  { right. right. destruct (Hnorm _ _ _ H) as [-> [Hn Hc]].
    exists s, Newspaper, t1, (snd r1). repeat split; [|exact Hn|exact Hc].
    apply fs_here. exact (taken_of_found env Newspaper u st r1 _ t1 E1 F1). }
  destruct (declined_of_not_found env Newspaper u st r1 st1 E1 F1)
    as [d1 D1].
  unfold bind at 1 in H.
  destruct (extract_with_trafilatura env u st1) as [[r2|e2] st2] eqn:E2.
  2:{ injection H as <- <-. right. left.
      exists s, [Newspaper], Trafilatura, [Gemini], st1.
      repeat split; [apply (ad_cons env _ _ _ _ d1 st1); [exact D1|constructor]
                    | exact E2 |].
      exact (stage_raises_unhandled env Trafilatura _ _ _ _ E2). }
  destruct (found (fst r2)) as [t2|] eqn:F2.
  { right. right. destruct (Hnorm _ _ _ H) as [-> [Hn Hc]].
    exists s, Trafilatura, t2, (snd r2).
    repeat split; [|exact Hn|exact Hc].
    apply (fs_later env _ _ _ _ d1 st1); [exact D1|].
    apply fs_here.
    exact (taken_of_found env Trafilatura u st1 r2 _ t2 E2 F2). }
  destruct (declined_of_not_found env Trafilatura u st1 r2 st2 E2 F2)
    as [d2 D2].
  unfold bind at 1 in H.
  destruct (extract_with_gemini env u st2) as [[r3|e3] st3] eqn:E3.
  2:{ injection H as <- <-. right. left.
      exists s, [Newspaper; Trafilatura], Gemini, [], st2.
      repeat split;
        [apply (ad_cons env _ _ _ _ d1 st1); [exact D1|];
         apply (ad_cons env _ _ _ _ d2 st2); [exact D2|constructor]
        | exact E3 |].
      exact (stage_raises_unhandled env Gemini _ _ _ _ E3). }
  destruct (found (fst r3)) as [t3|] eqn:F3.
  { right. right. destruct (Hnorm _ _ _ H) as [-> [Hn Hc]].
    exists s, Gemini, t3, (snd r3). repeat split; [|exact Hn|exact Hc].
    apply (fs_later env _ _ _ _ d1 st1); [exact D1|].
    apply (fs_later env _ _ _ _ d2 st2); [exact D2|].
    apply fs_here. exact (taken_of_found env Gemini u st2 r3 _ t3 E3 F3). }
  destruct (declined_of_not_found env Gemini u st2 r3 st3 E3 F3) as [d3 D3].
  left. destruct (Hcreate _ _ _ _ H) as [-> ->]. split; [reflexivity|].
  right. exists s. split; [reflexivity|].
  apply (ad_cons env _ _ _ _ d1 st1); [exact D1|].
  apply (ad_cons env _ _ _ _ d2 st2); [exact D2|].
  apply (ad_cons env _ _ _ _ d3 st3); [exact D3|constructor].
Qed.

(** X23.  On a table without rows whose configured columns exist,
    [process_csv] enters no stage and hands an empty table to [to_csv];
    its outcome is that of [to_csv]. *)
Theorem process_csv_empty_table :
  forall (W : Type) (env : Environment W) (input_csv output_csv : string)
         (config : Config) (st : state W) (df : DataFrame) (w1 w2 : W)
         (r : result unit),
    pd_read_csv env input_csv (world st) = (Ok df, w1) ->
    rows df = [] ->
    has_column df (id_column config) = true ->
    (forall col, In col (url_columns config) -> has_column df col = true) ->
    DataFrame_to_csv env [] output_csv w1 = (r, w2) ->
    process_csv env input_csv output_csv config st
    = (r, mk_state w2 (trace st ++ [Written output_csv []])).
Proof.
  intros W env input_csv output_csv config st df w1 w2 r Hread Hrows Hid
    Hcols Hcsv.
  unfold process_csv. unfold bind at 1. unfold call_world at 1.
  rewrite Hread, Hid. cbn [negb].
  assert (Hf : filter (fun col => negb (has_column df col))
                 (url_columns config) = []).
  { destruct (filter _ (url_columns config)) as [|c cs] eqn:E;
      [reflexivity|].
    assert (Hin : In c (filter (fun col => negb (has_column df col))
                          (url_columns config)))
      by (rewrite E; left; reflexivity).
    apply filter_In in Hin as [Hin Hneg]. rewrite (Hcols c Hin) in Hneg.
    discriminate Hneg. }
  rewrite Hf, Hrows. cbn [process_rows].
  unfold bind, ret, emit, call_world. cbn [world trace map].
  rewrite Hcsv. reflexivity.
Qed.

Lemma process_csv_empty_table_witness :
  process_csv
    (Examples.site (Ok (mk_Article "" None)) (Ok None)
       Examples.connection_error Examples.connection_error []
       (Ok (mk_DataFrame ["id"; "url"] [])))
    "in.csv" "out.csv" Examples.id_and_url Examples.start
  = (Ok tt, mk_state tt ([] ++ [Written "out.csv" []])).
Proof.
  apply (process_csv_empty_table unit
           (Examples.site (Ok (mk_Article "" None)) (Ok None)
              Examples.connection_error Examples.connection_error []
              (Ok (mk_DataFrame ["id"; "url"] [])))
           "in.csv" "out.csv" Examples.id_and_url Examples.start
           (mk_DataFrame ["id"; "url"] []) tt tt (Ok tt)).
  - reflexivity.
  - reflexivity.
  - reflexivity.
  - intros col [<- | []]. reflexivity.
  - reflexivity.
Defined.

Lemma extract_from_url_raises_only_witness :
  (mk_exn (Lib AttributeError) "'NoneType' object has no attribute 'strip'"
   = no_create_error
   /\ ((invalid_url (PyStr Examples.page_url) = true
        /\ mk_state tt [Invoked Newspaper Examples.page_url;
                        Invoked Trafilatura Examples.page_url;
                        Invoked Gemini Examples.page_url]
           = Examples.start)
       \/ exists s,
            PyStr Examples.page_url = PyStr s
            /\ all_declined Examples.null_text_site pipeline (Str.strip s)
                 Examples.start
                 (mk_state tt [Invoked Newspaper Examples.page_url;
                               Invoked Trafilatura Examples.page_url;
                               Invoked Gemini Examples.page_url])))
  \/ (exists s before k after st0,
        PyStr Examples.page_url = PyStr s
        /\ pipeline = (before ++ k :: after)%list
        /\ all_declined Examples.null_text_site before (Str.strip s)
             Examples.start st0
        /\ run_stage Examples.null_text_site k (Str.strip s) st0
           = (Raise (mk_exn (Lib AttributeError)
                       "'NoneType' object has no attribute 'strip'"),
              mk_state tt [Invoked Newspaper Examples.page_url;
                           Invoked Trafilatura Examples.page_url;
                           Invoked Gemini Examples.page_url])
        /\ catches Examples.null_text_site (handled_by k)
             (mk_exn (Lib AttributeError)
                "'NoneType' object has no attribute 'strip'") = false)
  \/ (exists s k text date,
        PyStr Examples.page_url = PyStr s
        /\ first_success Examples.null_text_site pipeline (Str.strip s)
             Examples.start k text date
             (mk_state tt [Invoked Newspaper Examples.page_url;
                           Invoked Trafilatura Examples.page_url;
                           Invoked Gemini Examples.page_url])
        /\ normalize_date Examples.null_text_site date
             (mk_state tt [Invoked Newspaper Examples.page_url;
                           Invoked Trafilatura Examples.page_url;
                           Invoked Gemini Examples.page_url])
           = (Raise (mk_exn (Lib AttributeError)
                       "'NoneType' object has no attribute 'strip'"),
              mk_state tt [Invoked Newspaper Examples.page_url;
                           Invoked Trafilatura Examples.page_url;
                           Invoked Gemini Examples.page_url])
        /\ catches Examples.null_text_site [Lib ValueError; Lib TypeError]
             (mk_exn (Lib AttributeError)
                "'NoneType' object has no attribute 'strip'") = false).
Proof.
  apply (extract_from_url_raises_only unit Examples.null_text_site
           (PyStr Examples.page_url) "a1" Examples.start
           (mk_exn (Lib AttributeError)
              "'NoneType' object has no attribute 'strip'")
           (mk_state tt [Invoked Newspaper Examples.page_url;
                         Invoked Trafilatura Examples.page_url;
                         Invoked Gemini Examples.page_url])).
  vm_compute. reflexivity.
Defined.

(** ** Dates out of range *)

(** C7.  On the string 1700000000000, a time stamp in milliseconds,
    dateutil raises [OverflowError]; the [except] clause of
    [normalize_date] names [ValueError] and [TypeError] only, so the
    exception leaves [normalize_date] instead of being turned into
    [None]. *)
Theorem normalize_date_overflowing_string_raises :
  normalize_date Examples.epoch_site (PyStr Examples.epoch_date)
    Examples.start
  = (Raise Examples.year_overflow, Examples.start)
  /\ exn_type Examples.year_overflow = Lib OverflowError
  /\ catches Examples.epoch_site [Lib ValueError; Lib TypeError]
       Examples.year_overflow = false.
Proof. repeat split; vm_compute; reflexivity. Qed.

(** C1.  On a page where the first two stages find nothing and the model
    returns the article with the date 1700000000000, the LLM stage is the
    first to return a text, longer than a hundred characters, and yet
    [extract_from_url] returns no result: the [OverflowError] of
    [normalize_date] leaves it. *)
Theorem extract_from_url_overflowing_date_raises :
  first_success Examples.epoch_site pipeline Examples.page_url Examples.start
    Gemini Examples.article_body (PyStr Examples.epoch_date)
    (mk_state tt [Invoked Newspaper Examples.page_url;
                  Invoked Trafilatura Examples.page_url;
                  Invoked Gemini Examples.page_url])
  /\ 100 < String.length Examples.article_body
  /\ extract_from_url Examples.epoch_site (PyStr Examples.page_url) "a1"
       Examples.start
     = (Raise Examples.year_overflow,
        mk_state tt [Invoked Newspaper Examples.page_url;
                     Invoked Trafilatura Examples.page_url;
                     Invoked Gemini Examples.page_url]).
Proof.
  split; [|split].
  - apply (fs_later _ Newspaper _ _ _ PyNone
             (mk_state tt [Invoked Newspaper Examples.page_url]));
      [vm_compute; reflexivity|].
    apply (fs_later _ Trafilatura _ _ _ PyNone
             (mk_state tt [Invoked Newspaper Examples.page_url;
                           Invoked Trafilatura Examples.page_url]));
      [vm_compute; reflexivity|].
    apply fs_here. vm_compute. reflexivity.
  - vm_compute. repeat constructor.
  - vm_compute. reflexivity.
Qed.
